(** * HeaderTooltips plugin (src/plugins/headerTooltips/headerTooltips.js)

    A shallow embedding of the plugin class and of the small part of the
    JavaScript and DOM world it touches, followed by the properties of its
    settings normalisation, its per-header hook and its cleanup traversal. *)

From stdpp Require Import base option list gmap strings.
From Stdlib Require Import ZArith Lia.

Local Open Scope string_scope.

(** ** JavaScript values

    The plugin settings are duck-typed: [headerTooltips] may be a boolean, an
    object literal, or anything else the user wrote.  Property values are
    primitives here; numbers are restricted to integers (no NaN). *)
Module JS.

Inductive prim :=
| PUndefined
| PNull
| PBool (b : bool)
| PNumber (n : Z)
| PString (s : string).

Inductive value :=
| Prim (p : prim)
| Object (props : gmap string prim).

Inductive exn := TypeError.

(** [ToBoolean], as used by [if], [&&], [||] and [!!]. *)
Definition toBoolean_prim (p : prim) : bool :=
  match p with
  | PUndefined | PNull => false
  | PBool b => b
  | PNumber n => negb (n =? 0)%Z
  | PString s => negb (String.eqb s EmptyString)
  end.

Definition toBoolean (v : value) : bool :=
  match v with
  | Prim p => toBoolean_prim p
  | Object _ => true
  end.

Definition typeof (v : value) : string :=
  match v with
  | Prim PUndefined => "undefined"
  | Prim PNull => "object"
  | Prim (PBool _) => "boolean"
  | Prim (PNumber _) => "number"
  | Prim (PString _) => "string"
  | Object _ => "object"
  end.

(** Outcome of a computation: a normal completion or a thrown exception. *)
Inductive outcome (A : Type) :=
| Return (a : A)
| Throw (e : exn).
Global Arguments Return {A} a.
Global Arguments Throw {A} e.

(** Computations over a mutable store [S].  The store is threaded through
    and survives a throw, as mutations made before an exception do. *)
Definition M (S A : Type) : Type := S → outcome A * S.

Definition throw {S A} (e : exn) : M S A := λ s, (Throw e, s).
Definition get {S} : M S S := λ s, (Return s, s).
Definition modify {S} (f : S → S) : M S unit := λ s, (Return tt, f s).

Global Instance M_ret {S} : MRet (M S) := λ A a s, (Return a, s).
Global Instance M_bind {S} : MBind (M S) := λ A B f m s,
  match m s with
  | (Return a, s') => f a s'
  | (Throw e, s') => (Throw e, s')
  end.

Global Instance M_fmap {S} : FMap (M S) := λ A B f m,
  a ← m; mret (f a).

(** Property read [v.k] for a key that no primitive wrapper defines
    ([rows], [columns], [onlyTrimmed]): a TypeError on [undefined] and
    [null], [undefined] on other primitives and on absent keys. *)
Definition lookupProp (v : value) (k : string) : option prim :=
  match v with
  | Prim PUndefined | Prim PNull => None
  | Prim _ => Some PUndefined
  | Object props => Some (default PUndefined (props !! k))
  end.

Definition getProp {S} (v : value) (k : string) : M S prim :=
  match lookupProp v k with
  | Some p => mret p
  | None => throw TypeError
  end.

(** Short-circuit [a && b] and [a || b] in condition position. *)
Definition and_then {S} (a : bool) (b : M S bool) : M S bool :=
  if a then b else mret false.
Definition or_else {S} (a : M S bool) (b : M S bool) : M S bool :=
  x ← a; if x : bool then mret true else b.

End JS.
Import JS.

(** ** DOM fragments the plugin reads and writes *)

(** The header's inner label, [TH.querySelector('span')]. *)
Record Span := {
  textContent : string;
  span_offsetWidth : Z
}.

(** A header cell.  [th_section] is [TH.parentNode.parentNode.nodeName]
    (the host hands over attached cells: THEAD for column headers, TBODY for
    row headers); [th_offsetWidth] is the cell's own rendered width. *)
Record TH := {
  attributes : gmap string string;
  th_span : option Span;
  th_offsetWidth : Z;
  th_section : string
}.

Definition setAttribute (name val : string) (el : TH) : TH :=
  {| attributes := <[name := val]> (attributes el);
     th_span := th_span el;
     th_offsetWidth := th_offsetWidth el;
     th_section := th_section el |}.

Definition removeAttribute (name : string) (el : TH) : TH :=
  {| attributes := delete name (attributes el);
     th_span := th_span el;
     th_offsetWidth := th_offsetWidth el;
     th_section := th_section el |}.

Definition getAttribute (name : string) (el : TH) : option string :=
  attributes el !! name.

(** [childNodes] of a THEAD are its header rows, [childNodes] of a row are
    its header cells. *)
Abbreviation TR := (list TH).
Abbreviation THEAD := (list (list TH)).

Section measurement.

(** What the measurement helper yields when it is handed no element.  The
    helper is not under src/ and nothing says what it does then, so this is
    left open: everything below holds whichever result it is. *)
Context (outerWidth_missing : outcome Z).

(** Modelled from the spec: [outerWidth] of helpers/dom/element is not under
    src/; the spec calls it the measurement of an element's rendered outer
    width.  On an element it is that width; without an element it is
    [outerWidth_missing]. *)
Definition outerWidth {S} (element : option Span) : M S Z :=
  match element with
  | Some e => mret (span_offsetWidth e)
  | None => λ s, (outerWidth_missing, s)
  end.

(** [innerSpan.textContent]. *)
Definition textContentOf {S} (element : option Span) : M S string :=
  match element with
  | Some e => mret (textContent e)
  | None => throw TypeError
  end.

(** ** The plugin object *)

(** [settings] is the cached plugin setting; [enabled] and [hooks] are the
    fields kept by the base class. *)
Record HeaderTooltips := {
  settings : value;
  enabled : bool;
  hooks : list string
}.

(** The constructor: [this.settings = null], base state disabled. *)
Definition new_plugin : HeaderTooltips :=
  {| settings := Prim PNull; enabled := false; hooks := [] |}.

(** *** parseSettings *)

Definition default_settings : value :=
  Object (<["rows" := PBool true]>
         (<["columns" := PBool true]>
         (<["onlyTrimmed" := PBool false]> ∅))).

Definition parseSettings_value (s : value) : value :=
  if String.eqb (typeof s) "boolean" then default_settings else s.

(** *** onAfterGetHeader *)

(** [const columnWidth = 50]: the source holds the cell's width at the value
    that [outerWidth(TH)] used to return, instead of measuring it. *)
Definition columnWidth : Z := 50.

(** The test of the [onlyTrimmed] branch:
    [textWidth >= columnWidth && textWidth !== 0]. *)
Definition trimmed_guard (textWidth : Z) : bool :=
  (textWidth >=? columnWidth)%Z && negb (textWidth =? 0)%Z.

Definition onAfterGetHeader (this : HeaderTooltips) (index : Z) : M TH unit :=
  th ← get;
  let innerSpan := th_span th in
  let isColHeader := String.eqb (th_section th) "THEAD" in
  applicable ←
    or_else
      (and_then isColHeader (toBoolean_prim <$> getProp (settings this) "columns"))
      (and_then (negb isColHeader) (toBoolean_prim <$> getProp (settings this) "rows"));
  if applicable : bool then
    onlyTrimmed ← getProp (settings this) "onlyTrimmed";
    if toBoolean_prim onlyTrimmed then
      textWidth ← outerWidth innerSpan;
      if trimmed_guard textWidth then
        text ← textContentOf innerSpan;
        modify (setAttribute "title" text)
      else mret tt
    else
      text ← textContentOf innerSpan;
      modify (setAttribute "title" text)
  else mret tt.

(** ** The host instance *)

(** What the plugin reaches through [this.hot]:
    [getSettings().headerTooltips],
    [view.wt.getSetting('columnHeaders').length],
    [view.wt.wtTable.THEAD],
    [view.wt.wtOverlays.topOverlay.clone.wtTable.THEAD] and
    [view.wt.wtOverlays.topLeftCornerOverlay], which alone may be missing. *)
Record Hot := {
  headerTooltips : value;
  columnHeaders_length : nat;
  wtTable_THEAD : THEAD;
  topOverlay_THEAD : THEAD;
  topLeftCornerOverlay : option THEAD
}.

Record World := {
  hot : Hot;
  self : HeaderTooltips
}.

Inductive surface := Master | Top | TopLeftCorner.

Definition thead_of (sf : surface) (h : Hot) : option THEAD :=
  match sf with
  | Master => Some (wtTable_THEAD h)
  | Top => Some (topOverlay_THEAD h)
  | TopLeftCorner => topLeftCornerOverlay h
  end.

Definition update_thead (sf : surface) (f : THEAD → THEAD) (h : Hot) : Hot :=
  match sf with
  | Master =>
      {| headerTooltips := headerTooltips h;
         columnHeaders_length := columnHeaders_length h;
         wtTable_THEAD := f (wtTable_THEAD h);
         topOverlay_THEAD := topOverlay_THEAD h;
         topLeftCornerOverlay := topLeftCornerOverlay h |}
  | Top =>
      {| headerTooltips := headerTooltips h;
         columnHeaders_length := columnHeaders_length h;
         wtTable_THEAD := wtTable_THEAD h;
         topOverlay_THEAD := f (topOverlay_THEAD h);
         topLeftCornerOverlay := topLeftCornerOverlay h |}
  | TopLeftCorner =>
      {| headerTooltips := headerTooltips h;
         columnHeaders_length := columnHeaders_length h;
         wtTable_THEAD := wtTable_THEAD h;
         topOverlay_THEAD := topOverlay_THEAD h;
         topLeftCornerOverlay := f <$> topLeftCornerOverlay h |}
  end.

(** [childNodes[i]]: [undefined] outside the node list. *)
Definition item {A} (childNodes : list A) (i : Z) : option A :=
  if (i <? 0)%Z then None else childNodes !! Z.to_nat i.

(** The cell [THEAD.childNodes[i].childNodes[j]] of a surface, if any. *)
Definition cell (sf : surface) (i j : Z) (h : Hot) : option TH :=
  thead ← thead_of sf h; row ← item thead i; item row j.

Definition update_cell (f : TH → TH) (sf : surface) (i j : Z) (h : Hot) : Hot :=
  update_thead sf (alter (alter f (Z.to_nat j)) (Z.to_nat i)) h.

Definition with_hot (f : Hot → Hot) (w : World) : World :=
  {| hot := f (hot w); self := self w |}.

Definition with_self (f : HeaderTooltips → HeaderTooltips) (w : World) : World :=
  {| hot := hot w; self := f (self w) |}.

(** [level.childNodes[j].removeAttribute(name)] on the live cell; a
    TypeError when the cell is [undefined]. *)
Definition removeAttributeAt (name : string) (sf : surface) (i j : Z)
  : M World unit :=
  w ← get;
  match cell sf i j (hot w) with
  | Some _ => modify (with_hot (update_cell (removeAttribute name) sf i j))
  | None => throw TypeError
  end.

(** [level.childNodes.length]; a TypeError when the row is [undefined]. *)
Definition childNodes_length {S A} (level : option (list A)) : M S Z :=
  match level with
  | Some row => mret (Z.of_nat (length row))
  | None => throw TypeError
  end.

(** Modelled from the spec: [rangeEach] of helpers/number is not under src/;
    the spec has the traversal enumerate every level and then every index.
    It calls the iteratee on [rangeFrom], [rangeFrom + 1], ..., [rangeTo],
    not at all when [rangeTo < rangeFrom].  The iteratees of this plugin
    return nothing, so an early exit requested by the iteratee is not
    modelled. *)
Fixpoint rangeEach_loop {S} (count : nat) (index : Z) (iteratee : Z → M S unit)
  : M S unit :=
  match count with
  | O => mret tt
  | S count' => iteratee index ;; rangeEach_loop count' (index + 1)%Z iteratee
  end.

Definition rangeEach {S} (rangeFrom rangeTo : Z) (iteratee : Z → M S unit)
  : M S unit :=
  rangeEach_loop (Z.to_nat (rangeTo - rangeFrom + 1)) rangeFrom iteratee.

(** *** clearTitleAttributes *)

Definition clearTitleAttributes : M World unit :=
  w ← get;
  let headerLevels := Z.of_nat (columnHeaders_length (hot w)) in
  let mainHeaders := wtTable_THEAD (hot w) in
  let topHeaders := topOverlay_THEAD (hot w) in
  let topLeftCornerHeaders := topLeftCornerOverlay (hot w) in
  rangeEach 0 (headerLevels - 1) (λ i,
    let masterLevel := item mainHeaders i in
    let topLevel := item topHeaders i in
    let topLeftCornerLevel := h ← topLeftCornerHeaders; item h i in
    len ← childNodes_length masterLevel;
    rangeEach 0 (len - 1) (λ j,
      removeAttributeAt "title" Master i j ;;
      (match row ← topLevel; item row j with
       | Some _ => removeAttributeAt "title" Top i j
       | None => mret tt
       end) ;;
      (match _ ← topLeftCornerHeaders; row ← topLeftCornerLevel; item row j with
       | Some _ => removeAttributeAt "title" TopLeftCorner i j
       | None => mret tt
       end))).

(** *** Lifecycle *)

Definition set_settings (v : value) (p : HeaderTooltips) : HeaderTooltips :=
  {| settings := v; enabled := enabled p; hooks := hooks p |}.

(** Modelled from the spec: the base class (plugins/_base) is not under
    src/.  [addHook] registers one hook subscription of the plugin with the
    host.  The base class keeps the subscriptions and the enabled flag and
    knows nothing about header cells. *)
Definition addHook (name : string) : M World unit :=
  modify (with_self (λ p,
    {| settings := settings p; enabled := enabled p; hooks := hooks p ++ [name] |})).

(** Modelled from the spec: [super.enablePlugin()] of the absent base class
    marks the state enabled. *)
Definition super_enablePlugin : M World unit :=
  modify (with_self (λ p,
    {| settings := settings p; enabled := true; hooks := hooks p |})).

(** Modelled from the spec: [super.disablePlugin()] of the absent base class
    unregisters the hook subscriptions and marks the state disabled. *)
Definition super_disablePlugin : M World unit :=
  modify (with_self (λ p,
    {| settings := settings p; enabled := false; hooks := [] |})).

Definition isEnabled : M World bool :=
  w ← get; mret (toBoolean (headerTooltips (hot w))).

Definition parseSettings : M World unit :=
  modify (with_self (λ p, set_settings (parseSettings_value (settings p)) p)).

Definition enablePlugin : M World unit :=
  w ← get;
  if enabled (self w) then mret tt
  else
    modify (with_self (set_settings (headerTooltips (hot w)))) ;;
    parseSettings ;;
    addHook "afterGetColHeader" ;;
    addHook "afterGetRowHeader" ;;
    super_enablePlugin.

Definition disablePlugin : M World unit :=
  modify (with_self (set_settings (Prim PNull))) ;;
  clearTitleAttributes ;;
  super_disablePlugin.

(** Modelled from the spec: [super.destroy()] of the absent base class.  The
    spec has destroy drop the cached settings and then perform the full
    teardown, equivalent to disable plus any additional host-side
    unregistration, and has the cleanup traversal invoked on disable and on
    destroy.  The body of destroy drops the settings and hands over to the
    base class, so the base call is that teardown: what disable does, then
    the release of whatever subscriptions are left. *)
Definition super_destroy : M World unit :=
  disablePlugin ;;
  modify (with_self (λ p,
    {| settings := settings p; enabled := enabled p; hooks := [] |})).

Definition destroy : M World unit :=
  modify (with_self (set_settings (Prim PNull))) ;;
  super_destroy.

(** ** Vocabulary of the statements *)

Definition isColHeader (th : TH) : bool := String.eqb (th_section th) "THEAD".

(** The settings key that governs a header: [columns] for a column header,
    [rows] for a row header. *)
Definition dimension (th : TH) : string :=
  if isColHeader th then "columns" else "rows".

(** [this.settings[k]] can be read and is truthy. *)
Definition truthy_setting (this : HeaderTooltips) (k : string) : bool :=
  from_option toBoolean_prim false (lookupProp (settings this) k).

(** [this.settings[k]] can be read and is falsy. *)
Definition falsy_setting (this : HeaderTooltips) (k : string) : bool :=
  from_option (λ p, negb (toBoolean_prim p)) false (lookupProp (settings this) k).

Definition title (th : TH) : option string := getAttribute "title" th.

Definition set_th_offsetWidth (w : Z) (th : TH) : TH :=
  {| attributes := attributes th; th_span := th_span th;
     th_offsetWidth := w; th_section := th_section th |}.

(** The guard as the specification reads it: the width comparison alone. *)
Definition ge50_guard (textWidth : Z) : bool := (50 <=? textWidth)%Z.

(** A run of render passes over one header cell; every hook call is its own
    host callback, so a throwing call does not stop the later ones. *)
Fixpoint renders (calls : list (HeaderTooltips * Z)) (th : TH) : TH :=
  match calls with
  | [] => th
  | (this, index) :: calls' => renders calls' (onAfterGetHeader this index th).2
  end.

(** ** The cleanup traversal in closed form *)

(** [F j] applied to the elements at the indices [j < n]. *)
Definition imap_below {A} (F : nat → A → A) (n : nat) (l : list A) : list A :=
  imap (λ j x, if decide (j < n)%nat then F j x else x) l.

(** A row with [title] removed from its first [n] cells. *)
Definition clear_row (n : nat) (row : TR) : TR :=
  imap_below (λ _, removeAttribute "title") n row.

Definition row_length (thead : THEAD) (i : nat) : nat :=
  from_option length 0%nat (thead !! i).

(** A surface after the first [k] levels were visited: in row [i < k] the
    cells at the indices of the master row [i] have lost [title]. *)
Definition clear_levels (main : THEAD) (k : nat) (thead : THEAD) : THEAD :=
  imap_below (λ i, clear_row (row_length main i)) k thead.

Definition map_surfaces (g : THEAD → THEAD) (h : Hot) : Hot :=
  {| headerTooltips := headerTooltips h;
     columnHeaders_length := columnHeaders_length h;
     wtTable_THEAD := g (wtTable_THEAD h);
     topOverlay_THEAD := g (topOverlay_THEAD h);
     topLeftCornerOverlay := g <$> topLeftCornerOverlay h |}.

(** The host after a traversal of all configured levels. *)
Definition cleared (h : Hot) : Hot :=
  map_surfaces (clear_levels (wtTable_THEAD h) (columnHeaders_length h)) h.

(** The master surface has a row for every configured header level. *)
Definition master_rows_present (h : Hot) : Prop :=
  (columnHeaders_length h ≤ length (wtTable_THEAD h))%nat.

Global Instance master_rows_present_dec h : Decision (master_rows_present h).
Proof. unfold master_rows_present. apply _. Defined.

(** The row lengths of a surface. *)
Definition shape (thead : THEAD) : list nat := length <$> thead.

Definition hot_shape (h : Hot) : list nat * list nat * option (list nat) :=
  (shape (wtTable_THEAD h), shape (topOverlay_THEAD h),
   shape <$> topLeftCornerOverlay h).

(** A position visited by the traversal: a level below the configured count
    and an index inside the master row of that level. *)
Definition visited (h : Hot) (i j : nat) : Prop :=
  (i < columnHeaders_length h)%nat ∧ (j < row_length (wtTable_THEAD h) i)%nat.

Global Instance visited_dec h i j : Decision (visited h i j).
Proof. unfold visited. apply _. Defined.

(** ** Sample data *)

Definition settings_of (rows columns onlyTrimmed : bool) : value :=
  Object (<["rows" := PBool rows]>
         (<["columns" := PBool columns]>
         (<["onlyTrimmed" := PBool onlyTrimmed]> ∅))).

Definition plugin_with (v : value) : HeaderTooltips :=
  {| settings := v; enabled := true;
     hooks := ["afterGetColHeader"; "afterGetRowHeader"] |}.

(** A header cell of the given section with a label of the given width. *)
Definition header (section : string) (attrs : gmap string string)
    (label : string) (labelWidth : Z) : TH :=
  {| attributes := attrs;
     th_span := Some {| textContent := label; span_offsetWidth := labelWidth |};
     th_offsetWidth := 0;
     th_section := section |}.

(** A drawn table with one header level; every header carries a [title]. *)
Definition drawn_host : Hot :=
  {| headerTooltips := Prim (PBool true);
     columnHeaders_length := 1;
     wtTable_THEAD :=
       [[header "THEAD" {["title" := "Revenue"]} "Revenue" 80;
         header "THEAD" {["title" := "Qty"]} "Qty" 30]];
     topOverlay_THEAD :=
       [[header "THEAD" {["title" := "Revenue"]} "Revenue" 80;
         header "THEAD" {["title" := "Qty"]} "Qty" 30]];
     topLeftCornerOverlay := None |}.

(** A table configured with one header level whose header rows have not
    been drawn. *)
Definition undrawn_host : Hot :=
  {| headerTooltips := Prim (PBool true);
     columnHeaders_length := 1;
     wtTable_THEAD := [];
     topOverlay_THEAD := [];
     topLeftCornerOverlay := None |}.

(** Column tooltips are switched off, and the column headers carry a
    [title] and a [class] that other code has put there. *)
Definition foreign_host : Hot :=
  {| headerTooltips := settings_of true false false;
     columnHeaders_length := 1;
     wtTable_THEAD :=
       [[header "THEAD" {["title" := "set elsewhere"; "class" := "htLeft"]} "Id" 20]];
     topOverlay_THEAD :=
       [[header "THEAD" {["title" := "set elsewhere"]} "Id" 20]];
     topLeftCornerOverlay :=
       Some [[header "THEAD" {["title" := "set elsewhere"]} "Id" 20]] |}.

(** The [title] of a cell of a surface, if the cell exists and has one. *)
Definition title_at (sf : surface) (i j : Z) (h : Hot) : option string :=
  cell sf i j h ≫= title.

(** The host configuration after the user changed [headerTooltips]. *)
Definition set_headerTooltips (v : value) (h : Hot) : Hot :=
  {| headerTooltips := v;
     columnHeaders_length := columnHeaders_length h;
     wtTable_THEAD := wtTable_THEAD h;
     topOverlay_THEAD := topOverlay_THEAD h;
     topLeftCornerOverlay := topLeftCornerOverlay h |}.

(** The element a hook call leaves behind. *)
Definition after_hook (this : HeaderTooltips) (index : Z) (th : TH) : TH :=
  (onAfterGetHeader this index th).2.

(** * Proofs *)

(** ** The per-header hook *)

Section hook.
Context (this : HeaderTooltips) (index : Z) (th : TH).

(** The applicability test, [isColHeader && settings.columns ||
    !isColHeader && settings.rows], reads exactly one settings key. *)
Lemma applicable_test :
  or_else
    (and_then (isColHeader th)
       (toBoolean_prim <$> getProp (settings this) "columns"))
    (and_then (negb (isColHeader th))
       (toBoolean_prim <$> getProp (settings this) "rows")) th
  = match lookupProp (settings this) (dimension th) with
    | Some p => (Return (toBoolean_prim p), th)
    | None => (Throw TypeError, th)
    end.
Proof.
  unfold dimension, or_else, and_then, getProp, fmap, M_fmap, mbind, M_bind,
    mret, M_ret, throw.
  destruct (isColHeader th); simpl.
  - destruct (lookupProp (settings this) "columns") as [p|]; simpl; [|done].
    by destruct (toBoolean_prim p).
  - destruct (lookupProp (settings this) "rows") as [p|]; simpl; [|done].
    by destruct (toBoolean_prim p).
Qed.

(** The hook, case by case. *)
Lemma onAfterGetHeader_unfold :
  onAfterGetHeader this index th =
  match lookupProp (settings this) (dimension th) with
  | None => (Throw TypeError, th)
  | Some p =>
      if toBoolean_prim p then
        match lookupProp (settings this) "onlyTrimmed" with
        | None => (Throw TypeError, th)
        | Some ot =>
            match th_span th with
            | None =>
                if toBoolean_prim ot then
                  match outerWidth_missing with
                  | Return textWidth =>
                      if trimmed_guard textWidth then (Throw TypeError, th)
                      else (Return tt, th)
                  | Throw e => (Throw e, th)
                  end
                else (Throw TypeError, th)
            | Some span =>
                if toBoolean_prim ot && negb (trimmed_guard (span_offsetWidth span))
                then (Return tt, th)
                else (Return tt, setAttribute "title" (textContent span) th)
            end
        end
      else (Return tt, th)
  end.
Proof.
  unfold onAfterGetHeader.
  unfold mbind at 1. unfold M_bind at 1. unfold get at 1.
  unfold mbind at 1. unfold M_bind at 1.
  fold (isColHeader th). rewrite applicable_test.
  destruct (lookupProp (settings this) (dimension th)) as [p|]; [|done].
  destruct (toBoolean_prim p); [|done].
  unfold getProp, mbind, M_bind, mret, M_ret, throw.
  destruct (lookupProp (settings this) "onlyTrimmed") as [ot|]; [|done].
  destruct (th_span th) as [span|]; simpl.
  - destruct (toBoolean_prim ot); simpl; [|done].
    by destruct (trimmed_guard (span_offsetWidth span)).
  - destruct (toBoolean_prim ot); simpl; [|done].
    unfold outerWidth. destruct outerWidth_missing as [textWidth|e]; [|done].
    by destruct (trimmed_guard textWidth).
Qed.
End hook.

(** ** Properties of the hook *)

(** C1. With [onlyTrimmed] on and the header's dimension enabled, the hook
    sets [title] exactly when the measured width of the inner label is at
    least the constant 50 and is not 0: on a cell without [title] the
    attribute is present afterwards iff that test holds.  The cell's own
    width plays no part: the same run on a cell of any other width ends in
    the same cell. *)
Theorem onlyTrimmed_title_iff_label_width
    (this : HeaderTooltips) (index : Z) (th : TH) (span : Span) :
  truthy_setting this (dimension th) = true →
  truthy_setting this "onlyTrimmed" = true →
  th_span th = Some span →
  ∃ th',
    onAfterGetHeader this index th = (Return tt, th') ∧
    th' = (if decide ((50 ≤ span_offsetWidth span)%Z ∧ span_offsetWidth span ≠ 0%Z)
           then setAttribute "title" (textContent span) th else th) ∧
    (title th = None →
       (is_Some (title th') ↔
        (50 ≤ span_offsetWidth span)%Z ∧ span_offsetWidth span ≠ 0%Z)) ∧
    (∀ cellWidth,
       onAfterGetHeader this index (set_th_offsetWidth cellWidth th)
       = (Return tt, set_th_offsetWidth cellWidth th')).
Proof.
  intros Hdim Honly Hspan.
  assert (Hrun : ∀ t, th_span t = Some span → dimension t = dimension th →
            onAfterGetHeader this index t =
            (Return tt, if trimmed_guard (span_offsetWidth span)
                        then setAttribute "title" (textContent span) t else t)).
  { intros t Ht Hd. rewrite onAfterGetHeader_unfold, Hd, Ht.
    unfold truthy_setting in Hdim, Honly.
    destruct (lookupProp (settings this) (dimension th)) as [p|]; [|done].
    simpl in Hdim. rewrite Hdim.
    destruct (lookupProp (settings this) "onlyTrimmed") as [ot|]; [|done].
    simpl in Honly. rewrite Honly. simpl.
    by destruct (trimmed_guard (span_offsetWidth span)). }
  assert (Hguard : trimmed_guard (span_offsetWidth span) = true ↔
            (50 ≤ span_offsetWidth span)%Z ∧ span_offsetWidth span ≠ 0%Z).
  { unfold trimmed_guard, columnWidth.
    rewrite andb_true_iff, negb_true_iff, Z.geb_le, Z.eqb_neq. tauto. }
  eexists. split; [by apply Hrun|]. split; [|split].
  - case_decide as Hw.
    + apply Hguard in Hw. by rewrite Hw.
    + destruct (trimmed_guard (span_offsetWidth span)); [|done].
      destruct Hw. by apply Hguard.
  - intros Hnone. rewrite <- Hguard.
    destruct (trimmed_guard (span_offsetWidth span)).
    + unfold title, getAttribute. simpl. rewrite lookup_insert_eq.
      split; [done | by eexists].
    + rewrite Hnone. split; [by intros [? ?] | done].
  - intros cw. rewrite Hrun; [|done|done].
    by destruct (trimmed_guard (span_offsetWidth span)).
Qed.

(** C5. With [onlyTrimmed] off and the header's dimension enabled, the hook
    sets [title] to the text content of the inner label, unchanged. *)
Theorem title_is_label_text
    (this : HeaderTooltips) (index : Z) (th : TH) (span : Span) :
  truthy_setting this (dimension th) = true →
  falsy_setting this "onlyTrimmed" = true →
  th_span th = Some span →
  onAfterGetHeader this index th
    = (Return tt, setAttribute "title" (textContent span) th) ∧
  title (onAfterGetHeader this index th).2 = Some (textContent span).
Proof.
  intros Hdim Honly Hspan.
  assert (onAfterGetHeader this index th
          = (Return tt, setAttribute "title" (textContent span) th)) as ->.
  { rewrite onAfterGetHeader_unfold, Hspan.
    unfold truthy_setting in Hdim. unfold falsy_setting in Honly.
    destruct (lookupProp (settings this) (dimension th)) as [p|]; [|done].
    simpl in Hdim. rewrite Hdim.
    destruct (lookupProp (settings this) "onlyTrimmed") as [ot|]; [|done].
    simpl in Honly. apply negb_true_iff in Honly. by rewrite Honly. }
  split; [done|]. unfold title, getAttribute. simpl. apply lookup_insert_eq.
Qed.

(** C6. For a header whose dimension is switched off ([columns] falsy for a
    column header, [rows] falsy for a row header) the hook returns with the
    element exactly as it received it: no attribute is set or removed. *)
Theorem disabled_dimension_untouched
    (this : HeaderTooltips) (index : Z) (th : TH) :
  falsy_setting this (dimension th) = true →
  onAfterGetHeader this index th = (Return tt, th).
Proof.
  intros Hdim. rewrite onAfterGetHeader_unfold.
  unfold falsy_setting in Hdim.
  destruct (lookupProp (settings this) (dimension th)) as [p|]; [|done].
  simpl in Hdim. apply negb_true_iff in Hdim. by rewrite Hdim.
Qed.

(** What one call can do to the element, whatever the settings and the
    element are, and whether it returns or throws. *)
Lemma onAfterGetHeader_effect (this : HeaderTooltips) (index : Z) (th : TH) :
  (onAfterGetHeader this index th).2 = th ∨
  ∃ span, th_span th = Some span ∧
    (onAfterGetHeader this index th).2 = setAttribute "title" (textContent span) th.
Proof.
  rewrite onAfterGetHeader_unfold.
  destruct (lookupProp (settings this) (dimension th)) as [p|]; [|by left].
  destruct (toBoolean_prim p); [|by left].
  destruct (lookupProp (settings this) "onlyTrimmed") as [ot|]; [|by left].
  destruct (th_span th) as [span|].
  - destruct (toBoolean_prim ot && negb (trimmed_guard (span_offsetWidth span)));
      [by left|].
    right. by exists span.
  - left. destruct (toBoolean_prim ot); [|done].
    destruct outerWidth_missing as [textWidth|e]; [|done].
    by destruct (trimmed_guard textWidth).
Qed.

Lemma setAttribute_dom (name val : string) (th : TH) :
  dom (attributes th) ⊆ dom (attributes (setAttribute name val th)).
Proof. simpl. rewrite dom_insert_L. set_solver. Qed.

Lemma onAfterGetHeader_dom (this : HeaderTooltips) (index : Z) (th : TH) :
  dom (attributes th) ⊆ dom (attributes (onAfterGetHeader this index th).2).
Proof.
  destruct (onAfterGetHeader_effect this index th) as [-> | (span & _ & ->)];
    [done | apply setAttribute_dom].
Qed.

Lemma renders_dom (calls : list (HeaderTooltips * Z)) (th : TH) :
  dom (attributes th) ⊆ dom (attributes (renders calls th)).
Proof.
  revert th. induction calls as [|[this index] calls IH]; intros th; simpl.
  - done.
  - etrans; [apply onAfterGetHeader_dom | apply IH].
Qed.

(** C8. The hook never removes or clears [title]: a call leaves the element
    as it was or overwrites [title] with the text of the inner label, under
    any settings and for any element, also when it throws.  So the set of
    attributes the element carries only grows, over one call and over any
    run of render passes: a [title] set by an earlier pass stays. *)
Theorem onAfterGetHeader_never_clears
    (this : HeaderTooltips) (index : Z) (th : TH)
    (calls : list (HeaderTooltips * Z)) :
  ((onAfterGetHeader this index th).2 = th ∨
   ∃ span, th_span th = Some span ∧
     (onAfterGetHeader this index th).2
       = setAttribute "title" (textContent span) th) ∧
  dom (attributes th) ⊆ dom (attributes (onAfterGetHeader this index th).2) ∧
  dom (attributes th) ⊆ dom (attributes (renders calls th)).
Proof.
  split; [apply onAfterGetHeader_effect|].
  split; [apply onAfterGetHeader_dom | apply renders_dom].
Qed.

(** C9. In the [onlyTrimmed] branch the test
    [textWidth >= 50 && textWidth !== 0] agrees with [textWidth >= 50] alone
    on every width that is not negative. *)
Theorem trimmed_guard_is_ge50 (textWidth : Z) :
  (0 ≤ textWidth)%Z →
  trimmed_guard textWidth = ge50_guard textWidth.
Proof.
  intros _. unfold trimmed_guard, ge50_guard, columnWidth.
  destruct (Z.eqb_spec textWidth 0) as [->|Hne]; [done|].
  rewrite andb_true_r. apply eq_iff_eq_true. rewrite Z.geb_le, Z.leb_le. done.
Qed.

Lemma trimmed_guard_is_ge50_witness :
  (0 ≤ 50)%Z ∧ trimmed_guard 50 = ge50_guard 50.
Proof. split; [lia | apply (trimmed_guard_is_ge50 50); lia]. Defined.

(** ** Settings normalisation *)

(** C4. The method [parseSettings] rewrites the cached setting.  A boolean,
    whichever its value, is replaced by the record
    [{rows: true, columns: true, onlyTrimmed: false}]; a cached setting that
    is not a boolean is kept as it is, so the whole plugin and host are
    unchanged and a key the setting lacks stays absent. *)
Theorem parseSettings_normalises (b : bool) (wb w : World) :
  settings (self wb) = Prim (PBool b) →
  typeof (settings (self w)) ≠ "boolean" →
  parseSettings wb
    = (Return tt,
       with_self
         (set_settings
            (Object {["rows" := PBool true; "columns" := PBool true;
                      "onlyTrimmed" := PBool false]})) wb) ∧
  parseSettings w = (Return tt, w) ∧
  (∀ k, lookupProp (settings (self (parseSettings w).2)) k
        = lookupProp (settings (self w)) k) ∧
  parseSettings_value (Prim (PBool b))
    = Object {["rows" := PBool true; "columns" := PBool true;
               "onlyTrimmed" := PBool false]} ∧
  parseSettings_value (settings (self w)) = settings (self w).
Proof.
  intros Hb Hv.
  assert (Hid : parseSettings_value (settings (self w)) = settings (self w)).
  { unfold parseSettings_value.
    destruct (String.eqb_spec (typeof (settings (self w))) "boolean"); done. }
  assert (Hw : parseSettings w = (Return tt, w)).
  { unfold parseSettings, modify, with_self, set_settings. rewrite Hid.
    by destruct w as [h [? ? ?]]. }
  split.
  { unfold parseSettings, modify, with_self. by rewrite Hb. }
  split; [done|]. split; [by rewrite Hw|]. by split.
Qed.

Lemma parseSettings_normalises_witness :
  settings (self {| hot := drawn_host; self := plugin_with (Prim (PBool false)) |})
    = Prim (PBool false) ∧
  typeof (settings (self {| hot := drawn_host;
                            self := plugin_with (Object {["rows" := PBool true]}) |}))
    ≠ "boolean" ∧
  parseSettings {| hot := drawn_host; self := plugin_with (Prim (PBool false)) |}
    = (Return tt,
       with_self
         (set_settings
            (Object {["rows" := PBool true; "columns" := PBool true;
                      "onlyTrimmed" := PBool false]}))
         {| hot := drawn_host; self := plugin_with (Prim (PBool false)) |}) ∧
  parseSettings
      {| hot := drawn_host; self := plugin_with (Object {["rows" := PBool true]}) |}
    = (Return tt,
       {| hot := drawn_host; self := plugin_with (Object {["rows" := PBool true]}) |}) ∧
  (∀ k, lookupProp
          (settings (self (parseSettings
             {| hot := drawn_host;
                self := plugin_with (Object {["rows" := PBool true]}) |}).2)) k
        = lookupProp
            (settings (self {| hot := drawn_host;
                               self := plugin_with (Object {["rows" := PBool true]}) |}))
            k) ∧
  parseSettings_value (Prim (PBool false))
    = Object {["rows" := PBool true; "columns" := PBool true;
               "onlyTrimmed" := PBool false]} ∧
  parseSettings_value
      (settings (self {| hot := drawn_host;
                         self := plugin_with (Object {["rows" := PBool true]}) |}))
    = settings (self {| hot := drawn_host;
                        self := plugin_with (Object {["rows" := PBool true]}) |}).
Proof.
  split; [reflexivity|]. split; [discriminate|].
  apply (parseSettings_normalises false
           {| hot := drawn_host; self := plugin_with (Prim (PBool false)) |}
           {| hot := drawn_host; self := plugin_with (Object {["rows" := PBool true]}) |});
    [reflexivity | discriminate].
Defined.

(** Through enable: a boolean in the configuration ends as the record in
    the cached settings, a partial object as itself. *)
Example enablePlugin_caches_normalised :
  settings (self (enablePlugin
                    {| hot := set_headerTooltips (Prim (PBool true)) drawn_host;
                       self := new_plugin |}).2)
    = Object {["rows" := PBool true; "columns" := PBool true;
               "onlyTrimmed" := PBool false]} ∧
  settings (self (enablePlugin
                    {| hot := set_headerTooltips (Object {["rows" := PBool true]})
                                drawn_host;
                       self := new_plugin |}).2)
    = Object {["rows" := PBool true]}.
Proof. split; vm_compute; reflexivity. Qed.

(** The fields of the record a boolean expands to, and the keys a partial
    object still lacks after normalisation. *)
Example default_settings_fields :
  lookupProp (parseSettings_value (Prim (PBool true))) "rows" = Some (PBool true) ∧
  lookupProp (parseSettings_value (Prim (PBool true))) "columns" = Some (PBool true) ∧
  lookupProp (parseSettings_value (Prim (PBool true))) "onlyTrimmed" = Some (PBool false) ∧
  lookupProp (parseSettings_value (Object {["rows" := PBool true]})) "columns"
    = Some PUndefined.
Proof. repeat split; vm_compute; reflexivity. Qed.

Section list_facts.
Context {A : Type}.
Implicit Types (l : list A) (F : nat → A → A).

Lemma lookup_imap_below F n l j :
  imap_below F n l !! j
  = (λ x, if decide (j < n)%nat then F j x else x) <$> l !! j.
Proof. unfold imap_below. by rewrite list_lookup_imap. Qed.

Lemma length_imap_below F n l : length (imap_below F n l) = length l.
Proof. unfold imap_below. by rewrite length_imap. Qed.

Lemma imap_below_0 F l : imap_below F 0 l = l.
Proof.
  apply list_eq. intros j. rewrite lookup_imap_below.
  by destruct (l !! j).
Qed.

Lemma imap_below_S F n l :
  alter (F n) n (imap_below F n l) = imap_below F (S n) l.
Proof.
  apply list_eq. intros j. destruct (decide (n = j)) as [->|Hne].
  - rewrite list_lookup_alter_eq, !lookup_imap_below.
    destruct (l !! j); csimpl; [|done].
    repeat case_decide; try lia. done.
  - rewrite list_lookup_alter_ne, !lookup_imap_below by done.
    destruct (l !! j); csimpl; [|done].
    repeat case_decide; try lia; done.
Qed.

Lemma imap_below_idemp F n l :
  (∀ j x, F j (F j x) = F j x) →
  imap_below F n (imap_below F n l) = imap_below F n l.
Proof.
  intros HF. apply list_eq. intros j. rewrite !lookup_imap_below.
  destruct (l !! j); csimpl; [|done]. case_decide; [|done]. by rewrite HF.
Qed.
End list_facts.

Lemma item_of_nat {A} (l : list A) (i : nat) : item l (Z.of_nat i) = l !! i.
Proof.
  unfold item. destruct (Z.ltb_spec (Z.of_nat i) 0); [lia|]. by rewrite Nat2Z.id.
Qed.

Lemma length_clear_row n row : length (clear_row n row) = length row.
Proof. apply length_imap_below. Qed.

Lemma clear_row_0 row : clear_row 0 row = row.
Proof. apply imap_below_0. Qed.

Lemma removeAttribute_idemp name th :
  removeAttribute name (removeAttribute name th) = removeAttribute name th.
Proof. unfold removeAttribute. simpl. by rewrite delete_delete_eq. Qed.

Lemma clear_row_idemp n row : clear_row n (clear_row n row) = clear_row n row.
Proof. apply imap_below_idemp. intros _ x. apply removeAttribute_idemp. Qed.

Lemma shape_alter (f : TR → TR) i thead :
  (∀ row, length (f row) = length row) → shape (alter f i thead) = shape thead.
Proof.
  intros Hf. unfold shape. apply list_eq. intros k.
  rewrite !list_lookup_fmap.
  destruct (decide (i = k)) as [->|Hne].
  - rewrite list_lookup_alter_eq. destruct (thead !! k); simpl; [|done].
    by rewrite Hf.
  - by rewrite list_lookup_alter_ne.
Qed.

Lemma shape_clear_levels main k thead :
  shape (clear_levels main k thead) = shape thead.
Proof.
  unfold shape, clear_levels. apply list_eq. intros i.
  rewrite !list_lookup_fmap, lookup_imap_below.
  destruct (thead !! i); csimpl; [|done].
  case_decide; [|done]. by rewrite length_clear_row.
Qed.

Lemma row_length_shape main main' i :
  shape main = shape main' → row_length main i = row_length main' i.
Proof.
  unfold row_length, shape. intros Hs.
  assert (length <$> main !! i = length <$> main' !! i) as Hi
    by (by rewrite <- !list_lookup_fmap, Hs).
  destruct (main !! i), (main' !! i); simpl in *; congruence.
Qed.

Lemma clear_levels_shape main main' k thead :
  shape main = shape main' → clear_levels main k thead = clear_levels main' k thead.
Proof.
  intros Hs. unfold clear_levels. apply list_eq. intros i.
  rewrite !lookup_imap_below. by rewrite (row_length_shape main main' i Hs).
Qed.

Lemma clear_levels_0 main thead : clear_levels main 0 thead = thead.
Proof. apply imap_below_0. Qed.

Lemma clear_levels_S main k thead :
  alter (clear_row (row_length main k)) k (clear_levels main k thead)
  = clear_levels main (S k) thead.
Proof. unfold clear_levels. apply (imap_below_S (λ i, clear_row (row_length main i))). Qed.

(** Levels past the last master row change nothing. *)
Lemma clear_levels_ge main k thead :
  (length main ≤ k)%nat →
  clear_levels main k thead = clear_levels main (length main) thead.
Proof.
  intros Hk. unfold clear_levels. apply list_eq. intros i.
  rewrite !lookup_imap_below. destruct (thead !! i) as [row|]; csimpl; [|done].
  repeat case_decide; try lia; try done.
  unfold row_length. rewrite lookup_ge_None_2 by lia. simpl.
  by rewrite clear_row_0.
Qed.

Lemma clear_levels_idemp main k thead :
  clear_levels main k (clear_levels main k thead) = clear_levels main k thead.
Proof. apply imap_below_idemp. intros i row. apply clear_row_idemp. Qed.

Lemma map_surfaces_ext g g' h :
  (∀ thead, g thead = g' thead) → map_surfaces g h = map_surfaces g' h.
Proof.
  intros Hg. unfold map_surfaces. rewrite !Hg.
  by destruct (topLeftCornerOverlay h); simpl; rewrite ?Hg.
Qed.

Lemma map_surfaces_id g h : (∀ thead, g thead = thead) → map_surfaces g h = h.
Proof.
  intros Hg. destruct h as [? ? ? ? [c|]]; unfold map_surfaces; simpl;
    by rewrite !Hg.
Qed.

Lemma map_surfaces_compose g g' h :
  map_surfaces g (map_surfaces g' h) = map_surfaces (g ∘ g') h.
Proof. by destruct h as [? ? ? ? [c|]]. Qed.

Lemma hot_shape_map_surfaces g h :
  (∀ thead, shape (g thead) = shape thead) →
  hot_shape (map_surfaces g h) = hot_shape h.
Proof.
  intros Hg. unfold hot_shape, map_surfaces. simpl. rewrite !Hg.
  by destruct (topLeftCornerOverlay h); simpl; rewrite ?Hg.
Qed.

Lemma with_hot_ext f g w : f (hot w) = g (hot w) → with_hot f w = with_hot g w.
Proof. unfold with_hot. by intros ->. Qed.

Lemma with_hot_compose f g w : with_hot f (with_hot g w) = with_hot (f ∘ g) w.
Proof. done. Qed.

(** Whether a cell exists depends on the row lengths only. *)
Lemma lookup2_is_Some (thead : THEAD) i j :
  is_Some (thead !! i ≫= (.!! j)) ↔ ∃ n, shape thead !! i = Some n ∧ (j < n)%nat.
Proof.
  unfold shape. rewrite list_lookup_fmap.
  destruct (thead !! i) as [row|]; simpl.
  - rewrite lookup_lt_is_Some. split.
    + intros ?. by exists (length row).
    + by intros (n & [= <-] & ?).
  - split; [by intros [? ?] | by intros (? & ? & ?)].
Qed.

Lemma cell_of_nat sf i j h :
  cell sf (Z.of_nat i) (Z.of_nat j) h
  = thead_of sf h ≫= λ thead, thead !! i ≫= (.!! j).
Proof.
  unfold cell. destruct (thead_of sf h) as [thead|]; simpl; [|done].
  rewrite item_of_nat. destruct (thead !! i); simpl; [|done].
  by rewrite item_of_nat.
Qed.

Lemma cell_is_Some_shape sf i j h h' :
  hot_shape h = hot_shape h' →
  is_Some (cell sf (Z.of_nat i) (Z.of_nat j) h)
  ↔ is_Some (cell sf (Z.of_nat i) (Z.of_nat j) h').
Proof.
  unfold hot_shape. intros [= Hm Ht Hc]. rewrite !cell_of_nat.
  destruct sf; simpl.
  - by rewrite !lookup2_is_Some, Hm.
  - by rewrite !lookup2_is_Some, Ht.
  - destruct (topLeftCornerOverlay h), (topLeftCornerOverlay h');
      simplify_eq/=; [|done].
    by rewrite !lookup2_is_Some, Hc.
Qed.

(** Updating a cell that does not exist changes nothing. *)
Lemma update_cell_absent f sf i j h :
  cell sf (Z.of_nat i) (Z.of_nat j) h = None →
  update_cell f sf (Z.of_nat i) (Z.of_nat j) h = h.
Proof.
  rewrite cell_of_nat. unfold update_cell. rewrite !Nat2Z.id.
  assert (Hnop : ∀ thead : THEAD, thead !! i ≫= (.!! j) = None →
            alter (alter f j) i thead = thead).
  { intros thead Hn. apply list_eq. intros k.
    destruct (decide (i = k)) as [->|]; [|by rewrite list_lookup_alter_ne].
    rewrite list_lookup_alter_eq. destruct (thead !! k) as [row|]; [|done].
    simpl in *. f_equal. apply list_eq. intros k'.
    destruct (decide (j = k')) as [->|]; [|by rewrite list_lookup_alter_ne].
    by rewrite list_lookup_alter_eq, Hn. }
  destruct h as [? ? m t c]. destruct sf; simpl; intros Hn.
  - by rewrite Hnop.
  - by rewrite Hnop.
  - destruct c as [c|]; simpl in *; [|done]. by rewrite Hnop.
Qed.

(** ** Running the loops *)

Section loops.
Context {S : Type}.
Implicit Types (body : Z → M S unit) (P : nat → S).

Lemma rangeEach_loop_return body P count start s :
  s = P 0%nat →
  (∀ k, (k < count)%nat →
     body (start + Z.of_nat k)%Z (P k) = (Return tt, P (Datatypes.S k))) →
  rangeEach_loop count start body s = (Return tt, P count).
Proof.
  intros ->. revert start P.
  induction count as [|count IH]; intros start P Hbody; [done|].
  simpl. unfold mbind, M_bind.
  specialize (Hbody 0%nat ltac:(lia)) as Hfirst.
  rewrite Z.add_0_r in Hfirst. rewrite Hfirst.
  apply (IH (start + 1)%Z (λ k, P (Datatypes.S k))).
  intros k Hk. rewrite <- Hbody by lia. f_equal. lia.
Qed.

Lemma rangeEach_loop_throw body P n count start s e s' :
  s = P 0%nat →
  (n < count)%nat →
  (∀ k, (k < n)%nat →
     body (start + Z.of_nat k)%Z (P k) = (Return tt, P (Datatypes.S k))) →
  body (start + Z.of_nat n)%Z (P n) = (Throw e, s') →
  rangeEach_loop count start body s = (Throw e, s').
Proof.
  intros ->. revert start P count.
  induction n as [|n IH]; intros start P count Hn Hbody Hthrow.
  - destruct count as [|count]; [lia|]. simpl. unfold mbind, M_bind.
    rewrite Z.add_0_r in Hthrow. by rewrite Hthrow.
  - destruct count as [|count]; [lia|]. simpl. unfold mbind, M_bind.
    specialize (Hbody 0%nat ltac:(lia)) as Hfirst.
    rewrite Z.add_0_r in Hfirst. rewrite Hfirst.
    apply (IH (start + 1)%Z (λ k, P (Datatypes.S k))); [lia| |].
    + intros k Hk. rewrite <- Hbody by lia. f_equal. lia.
    + rewrite <- Hthrow. f_equal. lia.
Qed.
End loops.

Lemma removeAttributeAt_run name sf i j w :
  is_Some (cell sf i j (hot w)) →
  removeAttributeAt name sf i j w
  = (Return tt, with_hot (update_cell (removeAttribute name) sf i j) w).
Proof.
  intros [th Hth]. unfold removeAttributeAt, mbind, M_bind, get. by rewrite Hth.
Qed.

(** A guarded removal, [if (level && level.childNodes[j]) ...], acts as the
    update of the cell whether or not the cell exists. *)
Lemma guarded_removeAttributeAt name sf i j (present : option TH) w :
  (is_Some present ↔ is_Some (cell sf (Z.of_nat i) (Z.of_nat j) (hot w))) →
  match present with
  | Some _ => removeAttributeAt name sf (Z.of_nat i) (Z.of_nat j)
  | None => mret tt
  end w
  = (Return tt,
     with_hot (update_cell (removeAttribute name) sf (Z.of_nat i) (Z.of_nat j)) w).
Proof.
  intros Hp. destruct present as [th|].
  - apply removeAttributeAt_run, Hp. by eexists.
  - unfold mret, M_ret, with_hot. rewrite update_cell_absent; [by destruct w|].
    destruct (cell sf (Z.of_nat i) (Z.of_nat j) (hot w)) eqn:Hc; [|done].
    destruct Hp as [_ Hp]. by destruct Hp.
Qed.

Lemma update_cell_surfaces f i j h :
  update_cell f TopLeftCorner i j (update_cell f Top i j (update_cell f Master i j h))
  = map_surfaces (alter (alter f (Z.to_nat j)) (Z.to_nat i)) h.
Proof. done. Qed.

(** One pass of the inner iteratee: the three removals at position
    [(i, j)], in a state whose surfaces have the row lengths of [h0], the
    host the traversal started from. *)
Lemma visit_cell_run (h0 : Hot) (i j : nat) (w : World) :
  hot_shape (hot w) = hot_shape h0 →
  is_Some (cell Master (Z.of_nat i) (Z.of_nat j) h0) →
  (removeAttributeAt "title" Master (Z.of_nat i) (Z.of_nat j) ;;
   (match row ← item (topOverlay_THEAD h0) (Z.of_nat i); item row (Z.of_nat j) with
    | Some _ => removeAttributeAt "title" Top (Z.of_nat i) (Z.of_nat j)
    | None => mret tt
    end) ;;
   (match _ ← topLeftCornerOverlay h0;
          row ← (h ← topLeftCornerOverlay h0; item h (Z.of_nat i));
          item row (Z.of_nat j) with
    | Some _ => removeAttributeAt "title" TopLeftCorner (Z.of_nat i) (Z.of_nat j)
    | None => mret tt
    end)) w
  = (Return tt,
     with_hot (map_surfaces (alter (alter (removeAttribute "title") j) i)) w).
Proof.
  intros Hshape Hmaster.
  assert (Hupd : ∀ sf h, hot_shape (update_cell (removeAttribute "title") sf
                                      (Z.of_nat i) (Z.of_nat j) h) = hot_shape h).
  { intros sf h. unfold update_cell, hot_shape.
    destruct sf; simpl; rewrite ?shape_alter; try done;
      try (intros row; apply length_alter).
    destruct (topLeftCornerOverlay h); simpl; [|done].
    rewrite shape_alter; [done|]. intros row. apply length_alter. }
  unfold mbind at 1. unfold M_bind at 1.
  rewrite removeAttributeAt_run
    by (by apply (cell_is_Some_shape Master i j _ h0)).
  unfold mbind at 1. unfold M_bind at 1.
  rewrite (guarded_removeAttributeAt "title" Top i j).
  2:{ rewrite (cell_is_Some_shape Top i j _ h0); [done|].
      rewrite <- Hshape. exact (Hupd Master (hot w)). }
  rewrite (guarded_removeAttributeAt "title" TopLeftCorner i j).
  2:{ rewrite (cell_is_Some_shape TopLeftCorner i j _ h0).
      - unfold cell. simpl. by destruct (topLeftCornerOverlay h0).
      - rewrite <- Hshape, <- (Hupd Master (hot w)).
        exact (Hupd Top (update_cell (removeAttribute "title") Master
                           (Z.of_nat i) (Z.of_nat j) (hot w))). }
  rewrite !with_hot_compose. unfold with_hot, compose.
  by rewrite update_cell_surfaces, !Nat2Z.id.
Qed.

(** ** What the traversal computes

    The traversal returns exactly when the master surface has a row for
    every configured level; otherwise it throws at the first missing row.
    Either way the host it leaves behind is [cleared]. *)
Theorem clearTitleAttributes_run (w : World) :
  clearTitleAttributes w
  = (if decide (master_rows_present (hot w)) then Return tt else Throw TypeError,
     with_hot cleared w).
Proof.
  unfold clearTitleAttributes.
  unfold mbind at 1. unfold M_bind at 1. unfold get at 1.
  set (h0 := hot w). set (main0 := wtTable_THEAD h0).
  set (levels := columnHeaders_length h0).
  unfold rangeEach at 1.
  replace (Z.to_nat (Z.of_nat levels - 1 - 0 + 1)) with levels by lia.
  match goal with |- rangeEach_loop _ _ ?b _ = _ => set (body := b) end.
  set (V := λ k, with_hot (map_surfaces (clear_levels main0 k)) w).
  assert (HV0 : w = V 0%nat).
  { unfold V, with_hot. rewrite map_surfaces_id by apply clear_levels_0.
    by destruct w. }
  assert (Hshape : ∀ g, (∀ thead, shape (g thead) = shape thead) →
            hot_shape (hot (with_hot (map_surfaces g) w)) = hot_shape h0).
  { intros g Hg. simpl. by apply hot_shape_map_surfaces. }
  assert (Hstep : ∀ k, (k < length main0)%nat →
            body (0 + Z.of_nat k)%Z (V k) = (Return tt, V (S k))).
  { intros i Hi. rewrite Z.add_0_l. unfold body.
    destruct (lookup_lt_is_Some_2 main0 i Hi) as [mrow Hrow].
    fold main0. rewrite (item_of_nat main0 i), Hrow.
    unfold childNodes_length. unfold mbind at 1. unfold M_bind at 1.
    unfold mret at 1. unfold M_ret at 1.
    unfold rangeEach.
    replace (Z.to_nat (Z.of_nat (length mrow) - 1 - 0 + 1)) with (length mrow)
      by lia.
    set (W := λ j, with_hot (map_surfaces
                 (alter (clear_row j) i ∘ clear_levels main0 i)) w).
    assert (V (S i) = W (length mrow)) as ->.
    { unfold V, W. apply with_hot_ext, map_surfaces_ext. intros thead. simpl.
      rewrite <- clear_levels_S. unfold row_length. by rewrite Hrow. }
    apply (rangeEach_loop_return _ W).
    - unfold V, W. apply with_hot_ext, map_surfaces_ext. intros thead. simpl.
      symmetry. apply list_alter_id, clear_row_0.
    - intros j Hj. rewrite Z.add_0_l.
      rewrite (visit_cell_run h0 i j).
      + unfold W. rewrite with_hot_compose. f_equal.
        apply with_hot_ext. simpl.
        rewrite map_surfaces_compose. apply map_surfaces_ext.
        intros thead. simpl. rewrite list_alter_alter_eq.
        apply list_alter_ext; [|done]. intros row _. simpl.
        apply (imap_below_S (λ _, removeAttribute "title")).
      + apply Hshape. intros thead. simpl.
        rewrite shape_alter by apply length_clear_row.
        apply shape_clear_levels.
      + rewrite cell_of_nat. simpl. fold main0. rewrite Hrow. simpl.
        by apply lookup_lt_is_Some_2. }
  case_decide as Hwf; unfold master_rows_present in Hwf;
    fold main0 levels in Hwf.
  - rewrite (rangeEach_loop_return body V levels 0 w HV0).
    + done.
    + intros k Hk. apply Hstep. lia.
  - assert (with_hot cleared w = V (length main0)) as ->.
    { unfold V. apply with_hot_ext. unfold cleared. fold h0 main0 levels.
      apply map_surfaces_ext. intros thead. apply clear_levels_ge. lia. }
    apply (rangeEach_loop_throw body V (length main0) levels 0 w); [done|lia| |].
    + intros k Hk. by apply Hstep.
    + rewrite Z.add_0_l. unfold body. fold main0.
      rewrite (item_of_nat main0 (length main0)).
      by rewrite (lookup_ge_None_2 main0 (length main0)).
Qed.

(** ** Facts about the cleaned host *)

Lemma cleared_shape h : hot_shape (cleared h) = hot_shape h.
Proof. apply hot_shape_map_surfaces. intros thead. apply shape_clear_levels. Qed.

Lemma master_rows_present_cleared h :
  master_rows_present (cleared h) ↔ master_rows_present h.
Proof.
  unfold master_rows_present, cleared. simpl.
  unfold clear_levels. by rewrite length_imap_below.
Qed.

Lemma cleared_idemp h : cleared (cleared h) = cleared h.
Proof.
  unfold cleared at 1. simpl. unfold cleared.
  rewrite map_surfaces_compose. apply map_surfaces_ext. intros thead. simpl.
  rewrite (clear_levels_shape _ (wtTable_THEAD h)) by apply shape_clear_levels.
  apply clear_levels_idemp.
Qed.

(** Cell by cell: a visited position loses [title] on every surface that
    has a cell there, and every other cell is as before. *)
Lemma cell_cleared sf i j h :
  cell sf (Z.of_nat i) (Z.of_nat j) (cleared h)
  = (if decide (visited h i j) then removeAttribute "title" else id)
    <$> cell sf (Z.of_nat i) (Z.of_nat j) h.
Proof.
  rewrite !cell_of_nat.
  assert (Hl : ∀ thead : THEAD,
    clear_levels (wtTable_THEAD h) (columnHeaders_length h) thead !! i ≫= (.!! j)
    = (if decide (visited h i j) then removeAttribute "title" else id)
      <$> (thead !! i ≫= (.!! j))).
  { intros thead. unfold clear_levels. rewrite lookup_imap_below.
    destruct (thead !! i) as [row|]; csimpl; [|done].
    unfold visited. case_decide as Hi.
    - unfold clear_row. rewrite lookup_imap_below.
      destruct (row !! j) as [th|]; csimpl; [|done].
      repeat case_decide; try done; tauto.
    - destruct (row !! j) as [th|]; csimpl; [|done].
      case_decide; [tauto|done]. }
  unfold cleared. destruct sf; simpl; try apply Hl.
  destruct (topLeftCornerOverlay h); simpl; [apply Hl | done].
Qed.

Lemma title_removed th : title (removeAttribute "title" th) = None.
Proof. unfold title, getAttribute. simpl. apply lookup_delete_eq. Qed.

(** Removing [title] leaves every other attribute in place. *)
Lemma other_attributes_kept name th :
  name ≠ "title" → getAttribute name (removeAttribute "title" th) = getAttribute name th.
Proof. intros Hne. unfold getAttribute. simpl. by rewrite lookup_delete_ne. Qed.

(** ** Lifecycle runs *)

(** The plugin state the base class leaves after a completed disable or
    destroy; it is the state of a freshly constructed plugin. *)
Lemma disablePlugin_run (w : World) :
  disablePlugin w
  = if decide (master_rows_present (hot w))
    then (Return tt, {| hot := cleared (hot w); self := new_plugin |})
    else (Throw TypeError,
          {| hot := cleared (hot w); self := set_settings (Prim PNull) (self w) |}).
Proof.
  unfold disablePlugin. unfold mbind at 1. unfold M_bind at 1. unfold modify at 1.
  unfold mbind at 1. unfold M_bind at 1. rewrite clearTitleAttributes_run.
  simpl. by case_decide.
Qed.

Lemma destroy_run (w : World) : destroy w = disablePlugin w.
Proof.
  unfold destroy, super_destroy.
  unfold mbind at 1. unfold M_bind at 1. unfold modify at 1.
  unfold mbind at 1. unfold M_bind at 1.
  rewrite !disablePlugin_run. simpl. by case_decide.
Qed.

Lemma enablePlugin_run (w : World) :
  enablePlugin w
  = (Return tt,
     if enabled (self w) then w
     else {| hot := hot w;
             self := {| settings := parseSettings_value (headerTooltips (hot w));
                        enabled := true;
                        hooks := hooks (self w)
                                 ++ ["afterGetColHeader"; "afterGetRowHeader"] |} |}).
Proof.
  unfold enablePlugin, mbind, M_bind, get. destruct (enabled (self w)); [done|].
  unfold super_enablePlugin, addHook, parseSettings, modify, with_self,
    set_settings. simpl.
  by rewrite <- app_assoc.
Qed.

(** X17. A second disable changes nothing, also in the way it ends: running
    disable twice is running it once. *)
Lemma disablePlugin_twice (w : World) :
  (disablePlugin ;; disablePlugin) w = disablePlugin w.
Proof.
  unfold mbind, M_bind. rewrite (disablePlugin_run w).
  case_decide as Hwf; [|done].
  rewrite disablePlugin_run. simpl.
  rewrite decide_True by by apply master_rows_present_cleared.
  by rewrite cleared_idemp.
Qed.

(** Where disable returns, it ends in the same state whether or not the
    plugin had been enabled before. *)
Lemma disablePlugin_after_enablePlugin (w : World) :
  master_rows_present (hot w) →
  (enablePlugin ;; disablePlugin) w = disablePlugin w.
Proof.
  intros Hwf. unfold mbind, M_bind. rewrite enablePlugin_run.
  rewrite !disablePlugin_run.
  destruct (enabled (self w)); simpl; by rewrite !decide_True.
Qed.

(** ** Properties of the cleanup traversal and of the lifecycle *)

(** Where the master surface has a row for every level the traversal
    returns; a missing corner surface and missing rows or cells of the
    overlay surfaces are skipped. *)
Lemma clearTitleAttributes_returns (w : World) :
  master_rows_present (hot w) →
  clearTitleAttributes w = (Return tt, with_hot cleared w).
Proof. intros Hwf. by rewrite clearTitleAttributes_run, decide_True. Qed.

(** Where the master surface lacks the row of a configured level the
    traversal ends in a TypeError. *)
Lemma clearTitleAttributes_throws (w : World) :
  ¬ master_rows_present (hot w) →
  clearTitleAttributes w = (Throw TypeError, with_hot cleared w).
Proof. intros Hwf. by rewrite clearTitleAttributes_run, decide_False. Qed.

(** C2, at the input where it fails.  One header level is configured and the
    master THEAD has no row yet: the traversal does not skip the missing row
    but ends in a TypeError. *)
Theorem clearTitleAttributes_missing_master_row :
  clearTitleAttributes {| hot := undrawn_host; self := plugin_with default_settings |}
  = (Throw TypeError,
     {| hot := undrawn_host; self := plugin_with default_settings |}).
Proof. vm_compute. reflexivity. Qed.

(** The same with a second level configured over a table drawn with one:
    the first level is cleaned, then the traversal throws. *)
Example clearTitleAttributes_missing_second_row :
  let w := {| hot := {| headerTooltips := headerTooltips drawn_host;
                        columnHeaders_length := 2;
                        wtTable_THEAD := wtTable_THEAD drawn_host;
                        topOverlay_THEAD := topOverlay_THEAD drawn_host;
                        topLeftCornerOverlay := None |};
              self := plugin_with default_settings |} in
  (clearTitleAttributes w).1 = Throw TypeError ∧
  title_at Master 0 0 (hot (clearTitleAttributes w).2) = None.
Proof. split; vm_compute; reflexivity. Qed.

(** A missing row or cell of an overlay surface and a missing corner
    surface are skipped. *)
Example clearTitleAttributes_skips_overlay_gaps :
  let w := {| hot := {| headerTooltips := Prim (PBool true);
                        columnHeaders_length := 2;
                        wtTable_THEAD :=
                          wtTable_THEAD drawn_host ++ wtTable_THEAD drawn_host;
                        topOverlay_THEAD :=
                          [[header "THEAD" {["title" := "Revenue"]} "Revenue" 80]];
                        topLeftCornerOverlay := Some [] |};
              self := new_plugin |} in
  (clearTitleAttributes w).1 = Return tt ∧
  map (λ '(i, j), title_at Master i j (hot (clearTitleAttributes w).2))
      [(0, 0); (0, 1); (1, 0); (1, 1)]%Z = [None; None; None; None] ∧
  title_at Top 0 0 (hot (clearTitleAttributes w).2) = None.
Proof. repeat split; vm_compute; reflexivity. Qed.

(** The traversal is driven by the master rows: an overlay cell at an index
    past the end of the master row is not visited. *)
Example clearTitleAttributes_follows_master_row :
  let w := {| hot := {| headerTooltips := Prim (PBool true);
                        columnHeaders_length := 1;
                        wtTable_THEAD :=
                          [[header "THEAD" {["title" := "Revenue"]} "Revenue" 80]];
                        topOverlay_THEAD := topOverlay_THEAD drawn_host;
                        topLeftCornerOverlay := None |};
              self := new_plugin |} in
  (clearTitleAttributes w).1 = Return tt ∧
  title_at Top 0 0 (hot (clearTitleAttributes w).2) = None ∧
  title_at Top 0 1 (hot (clearTitleAttributes w).2) = Some "Qty".
Proof. repeat split; vm_compute; reflexivity. Qed.


(** On a drawn table whose headers carry titles, destroy removes them as
    disable does. *)
Example destroy_strips_titles :
  let w := {| hot := drawn_host; self := plugin_with default_settings |} in
  (destroy w).1 = Return tt ∧
  map (λ j, title_at Master 0 j (hot (destroy w).2)) [0; 1]%Z = [None; None] ∧
  map (λ j, title_at Top 0 j (hot (destroy w).2)) [0; 1]%Z = [None; None] ∧
  self (destroy w).2 = new_plugin.
Proof. repeat split; vm_compute; reflexivity. Qed.

(** C7, at the input where it fails.  On a plugin that was never enabled,
    over a table whose header row has not been drawn, disable ends in a
    TypeError from the cleanup traversal; the base class is not reached. *)
Theorem disablePlugin_before_enable_undrawn :
  disablePlugin {| hot := undrawn_host; self := new_plugin |}
  = (Throw TypeError, {| hot := undrawn_host; self := new_plugin |}).
Proof. vm_compute. reflexivity. Qed.

(** After a plugin was enabled the same throw leaves it enabled, its hooks
    registered and its settings gone. *)
Example disablePlugin_throw_leaves_hooks :
  let w := (enablePlugin {| hot := undrawn_host; self := new_plugin |}).2 in
  (disablePlugin w).1 = Throw TypeError ∧
  self (disablePlugin w).2
  = {| settings := Prim PNull; enabled := true;
       hooks := ["afterGetColHeader"; "afterGetRowHeader"] |}.
Proof. split; vm_compute; reflexivity. Qed.

(** X18. Where the master rows are present, disable returns, from any plugin
    state, in the state of a fresh plugin over the cleaned host, and a
    second disable returns and changes nothing. *)
Lemma disablePlugin_idempotent (w : World) :
  master_rows_present (hot w) →
  disablePlugin w = (Return tt, {| hot := cleared (hot w); self := new_plugin |}) ∧
  disablePlugin {| hot := cleared (hot w); self := new_plugin |}
  = (Return tt, {| hot := cleared (hot w); self := new_plugin |}) ∧
  disablePlugin {| hot := hot w; self := new_plugin |} = disablePlugin w.
Proof.
  intros Hwf. rewrite !disablePlugin_run. simpl.
  rewrite !decide_True; try done; [|by apply master_rows_present_cleared].
  by rewrite cleared_idemp.
Qed.

(** C10. The traversal reads no setting: whatever the plugin state, it
    leaves the same host, and so does disable.  At every visited position
    the cell of each surface loses [title], whoever had set it. *)
Theorem cleanup_strips_any_title
    (h : Hot) (p : HeaderTooltips) (sf : surface) (i j : nat) (th : TH) :
  visited h i j →
  cell sf (Z.of_nat i) (Z.of_nat j) h = Some th →
  hot (clearTitleAttributes {| hot := h; self := p |}).2 = cleared h ∧
  hot (disablePlugin {| hot := h; self := p |}).2 = cleared h ∧
  cell sf (Z.of_nat i) (Z.of_nat j) (cleared h) = Some (removeAttribute "title" th) ∧
  title (removeAttribute "title" th) = None.
Proof.
  intros Hv Hcell. split; [by rewrite clearTitleAttributes_run|].
  split; [rewrite disablePlugin_run; by case_decide|].
  split; [|apply title_removed].
  by rewrite cell_cleared, Hcell, decide_True.
Qed.

Lemma cleanup_strips_any_title_witness :
  visited foreign_host 0 0 ∧
  cell Master (Z.of_nat 0) (Z.of_nat 0) foreign_host
    = Some (header "THEAD" {["title" := "set elsewhere"; "class" := "htLeft"]} "Id" 20) ∧
  hot (clearTitleAttributes
         {| hot := foreign_host;
            self := plugin_with (settings_of true false false) |}).2
    = cleared foreign_host ∧
  hot (disablePlugin
         {| hot := foreign_host;
            self := plugin_with (settings_of true false false) |}).2
    = cleared foreign_host ∧
  cell Master (Z.of_nat 0) (Z.of_nat 0) (cleared foreign_host)
    = Some (removeAttribute "title"
              (header "THEAD" {["title" := "set elsewhere"; "class" := "htLeft"]} "Id" 20)) ∧
  title (removeAttribute "title"
           (header "THEAD" {["title" := "set elsewhere"; "class" := "htLeft"]} "Id" 20))
    = None.
Proof.
  split; [unfold visited, row_length; cbn; lia|]. split; [reflexivity|].
  apply (cleanup_strips_any_title foreign_host
           (plugin_with (settings_of true false false)) Master 0 0).
  - unfold visited, row_length; cbn; lia.
  - reflexivity.
Defined.

(** On [foreign_host] the titles nobody asked the plugin to set are gone
    from all three surfaces after disable, and the other attribute stays. *)
Example foreign_titles_stripped :
  let w := {| hot := foreign_host;
              self := plugin_with (settings_of true false false) |} in
  map (λ sf, title_at sf 0 0 (hot (disablePlugin w).2)) [Master; Top; TopLeftCorner]
    = [None; None; None] ∧
  cell Master 0 0 (hot (disablePlugin w).2) ≫= getAttribute "class" = Some "htLeft".
Proof. split; vm_compute; reflexivity. Qed.

(** * Further properties *)

(** ** The hook *)

Lemma setAttribute_idemp name val th :
  setAttribute name val (setAttribute name val th) = setAttribute name val th.
Proof. unfold setAttribute. simpl. by rewrite insert_insert_eq. Qed.

Lemma removeAttribute_setAttribute name val th :
  removeAttribute name (setAttribute name val th) = removeAttribute name th.
Proof. unfold removeAttribute, setAttribute. simpl. by rewrite delete_insert_eq. Qed.

(** X1. The hook reads the settings through two keys only, the one of the
    header's dimension and [onlyTrimmed]: two plugin states that agree on
    these two reads treat the header alike, at any index.  So a column
    header is not affected by [rows], a row header not by [columns], and no
    header by any other key. *)
Theorem onAfterGetHeader_reads_two_keys
    (this this' : HeaderTooltips) (index index' : Z) (th : TH) :
  lookupProp (settings this) (dimension th)
    = lookupProp (settings this') (dimension th) →
  lookupProp (settings this) "onlyTrimmed"
    = lookupProp (settings this') "onlyTrimmed" →
  onAfterGetHeader this index th = onAfterGetHeader this' index' th.
Proof. intros Hd Ho. by rewrite !onAfterGetHeader_unfold, Hd, Ho. Qed.

(** X2. Calling the hook a second time on the same element, at the same or
    another index, changes nothing more: two calls in a row end as one
    call does, in the element and in the way they end. *)
Theorem onAfterGetHeader_twice
    (this : HeaderTooltips) (index index' : Z) (th : TH) :
  (onAfterGetHeader this index ;; onAfterGetHeader this index') th
  = onAfterGetHeader this index th.
Proof.
  unfold mbind, M_bind. rewrite (onAfterGetHeader_unfold this index th).
  destruct (lookupProp (settings this) (dimension th)) as [p|] eqn:Hd; [|done].
  destruct (toBoolean_prim p) eqn:Hp.
  2:{ by rewrite onAfterGetHeader_unfold, Hd, Hp. }
  destruct (lookupProp (settings this) "onlyTrimmed") as [ot|] eqn:Ho; [|done].
  destruct (th_span th) as [span|] eqn:Hs.
  2:{ destruct (toBoolean_prim ot) eqn:Hot; [|done].
      destruct outerWidth_missing as [textWidth|e] eqn:Hm; [|done].
      destruct (trimmed_guard textWidth) eqn:Hg; [done|].
      by rewrite onAfterGetHeader_unfold, Hd, Hp, Ho, Hs, Hot, Hm, Hg. }
  destruct (toBoolean_prim ot && negb (trimmed_guard (span_offsetWidth span)))
    eqn:Hg.
  - by rewrite onAfterGetHeader_unfold, Hd, Hp, Ho, Hs, Hg.
  - rewrite onAfterGetHeader_unfold.
    change (dimension (setAttribute "title" (textContent span) th))
      with (dimension th).
    change (th_span (setAttribute "title" (textContent span) th))
      with (th_span th).
    by rewrite Hd, Hp, Ho, Hs, Hg, setAttribute_idemp.
Qed.

(** X3. The hook writes nothing but [title]: every other attribute of the
    element, its inner label, its width and its place in the table are
    after the call what they were before, whether the call returns or
    throws. *)
Theorem onAfterGetHeader_frame
    (this : HeaderTooltips) (index : Z) (th : TH) (name : string) :
  name ≠ "title" →
  getAttribute name (after_hook this index th) = getAttribute name th ∧
  th_span (after_hook this index th) = th_span th ∧
  th_offsetWidth (after_hook this index th) = th_offsetWidth th ∧
  th_section (after_hook this index th) = th_section th.
Proof.
  intros Hne. unfold after_hook.
  destruct (onAfterGetHeader_effect this index th) as [-> | (span & _ & ->)];
    [done|].
  unfold getAttribute. simpl. by rewrite lookup_insert_ne.
Qed.

(** X4. A header without an inner [span], in plain mode: where the header's
    dimension is switched on and [onlyTrimmed] is off, the hook throws a
    TypeError at [innerSpan.textContent] and leaves the element as it
    was. *)
Theorem onAfterGetHeader_missing_span
    (this : HeaderTooltips) (index : Z) (th : TH) :
  truthy_setting this (dimension th) = true →
  falsy_setting this "onlyTrimmed" = true →
  th_span th = None →
  onAfterGetHeader this index th = (Throw TypeError, th).
Proof.
  intros Hdim Honly Hspan. rewrite onAfterGetHeader_unfold, Hspan.
  unfold truthy_setting in Hdim. unfold falsy_setting in Honly.
  destruct (lookupProp (settings this) (dimension th)) as [p|]; [|done].
  simpl in Hdim. rewrite Hdim.
  destruct (lookupProp (settings this) "onlyTrimmed") as [ot|]; [|done].
  simpl in Honly. apply negb_true_iff in Honly. by rewrite Honly.
Qed.

(** X5. Cached settings that are a number, a string or a raw boolean have
    none of the three keys: the hook returns on every header without
    touching it. *)
Theorem onAfterGetHeader_primitive_settings
    (this : HeaderTooltips) (index : Z) (th : TH) (p : prim) :
  settings this = Prim p →
  p ≠ PUndefined →
  p ≠ PNull →
  onAfterGetHeader this index th = (Return tt, th).
Proof.
  intros Hs Hu Hn. rewrite onAfterGetHeader_unfold, Hs.
  by destruct p.
Qed.

(** ** Settings and enabling *)

(** X6. After normalisation the setting is never a boolean, and normalising
    again changes nothing; so for the method: the setting [parseSettings]
    leaves cached is never a boolean, and running it twice is running it
    once. *)
Theorem parseSettings_value_normal (v : value) (w : World) :
  typeof (parseSettings_value v) ≠ "boolean" ∧
  parseSettings_value (parseSettings_value v) = parseSettings_value v ∧
  typeof (settings (self (parseSettings w).2)) ≠ "boolean" ∧
  (parseSettings ;; parseSettings) w = parseSettings w.
Proof.
  assert (Hv : ∀ u, typeof (parseSettings_value u) ≠ "boolean" ∧
                    parseSettings_value (parseSettings_value u)
                    = parseSettings_value u).
  { intros u. unfold parseSettings_value.
    destruct (String.eqb_spec (typeof u) "boolean") as [Hb|Hb].
    - split; [discriminate | reflexivity].
    - split; [done|]. by destruct (String.eqb_spec (typeof u) "boolean"). }
  split; [apply Hv|]. split; [apply Hv|]. split; [apply Hv|].
  unfold mbind, M_bind, parseSettings, modify, with_self, set_settings. simpl.
  by rewrite (proj2 (Hv (settings (self w)))).
Qed.

(** X7. Enabling never throws and never touches the host.  A second enable
    is a no-op: it registers no further hook, and it does not read the
    configuration again even when the configuration has changed in
    between. *)
Theorem enablePlugin_once (w : World) (v : value) :
  (enablePlugin w).1 = Return tt ∧
  hot (enablePlugin w).2 = hot w ∧
  (enablePlugin ;; enablePlugin) w = enablePlugin w ∧
  enablePlugin (with_hot (set_headerTooltips v) (enablePlugin w).2)
  = (Return tt, with_hot (set_headerTooltips v) (enablePlugin w).2).
Proof.
  unfold mbind, M_bind. rewrite (enablePlugin_run w).
  destruct (enabled (self w)) eqn:He; simpl.
  - repeat split; rewrite enablePlugin_run; simpl; by rewrite He.
  - repeat split; by rewrite enablePlugin_run.
Qed.

(** X8. A boolean setting, [true] or [false], enables tooltips on every
    header: after enabling, the hook sets [title] to the label text on
    column headers and on row headers alike, whatever the label's width. *)
Theorem enablePlugin_boolean_shows_all
    (w : World) (b : bool) (index : Z) (th : TH) (span : Span) :
  enabled (self w) = false →
  headerTooltips (hot w) = Prim (PBool b) →
  th_span th = Some span →
  onAfterGetHeader (self (enablePlugin w).2) index th
  = (Return tt, setAttribute "title" (textContent span) th).
Proof.
  intros He Hcfg Hspan. rewrite enablePlugin_run, He. simpl.
  rewrite onAfterGetHeader_unfold. simpl. rewrite Hcfg, Hspan.
  change (parseSettings_value (Prim (PBool b))) with default_settings.
  unfold dimension. by destruct (isColHeader th).
Qed.

(** X9. The host asks [isEnabled] before it enables.  When [isEnabled]
    answers yes, the settings cached by the following enable can be read, so
    the hook returns normally on every header that has an inner label;
    [isEnabled] itself changes nothing. *)
Theorem isEnabled_then_hook_returns
    (w : World) (index : Z) (th : TH) (span : Span) :
  (isEnabled w).1 = Return true →
  enabled (self w) = false →
  th_span th = Some span →
  (isEnabled w).2 = w ∧
  (onAfterGetHeader (self (enablePlugin w).2) index th).1 = Return tt.
Proof.
  intros Hen He Hspan. split; [done|].
  rewrite enablePlugin_run, He. simpl.
  rewrite onAfterGetHeader_unfold. simpl. rewrite Hspan.
  unfold isEnabled, mbind, M_bind, get, mret, M_ret in Hen. simpl in Hen.
  destruct (headerTooltips (hot w)) as [p|props]; simpl in Hen.
  - destruct p as [| |b|n|s]; simpl in Hen; try discriminate.
    + change (parseSettings_value (Prim (PBool b))) with default_settings.
      unfold dimension. by destruct (isColHeader th).
    + done.
    + done.
  - change (parseSettings_value (Object props)) with (Object props). simpl.
    destruct (toBoolean_prim (default PUndefined (props !! dimension th)));
      [|done].
    by destruct (toBoolean_prim (default PUndefined (props !! "onlyTrimmed"))
                 && negb (trimmed_guard (span_offsetWidth span))).
Qed.

(** X10. An object setting enables the plugin even when it switches both
    dimensions off or names none: [isEnabled] answers yes, enabling
    registers both hooks, and the hook then leaves every header as it is. *)
Theorem enablePlugin_all_off
    (w : World) (props : gmap string prim) (index : Z) (th : TH) :
  enabled (self w) = false →
  headerTooltips (hot w) = Object props →
  toBoolean_prim (default PUndefined (props !! "rows")) = false →
  toBoolean_prim (default PUndefined (props !! "columns")) = false →
  (isEnabled w).1 = Return true ∧
  hooks (self (enablePlugin w).2)
    = (hooks (self w) ++ ["afterGetColHeader"; "afterGetRowHeader"])%list ∧
  onAfterGetHeader (self (enablePlugin w).2) index th = (Return tt, th).
Proof.
  intros He Hcfg Hrows Hcols.
  split.
  { unfold isEnabled, mbind, M_bind, get, mret, M_ret. simpl. by rewrite Hcfg. }
  rewrite enablePlugin_run, He. simpl. split; [done|].
  rewrite onAfterGetHeader_unfold. simpl. rewrite Hcfg.
  change (parseSettings_value (Object props)) with (Object props). simpl.
  unfold dimension. destruct (isColHeader th); by rewrite ?Hrows, ?Hcols.
Qed.

(** X11. Once the cached settings are gone the hook cannot run: on a plugin
    that was never enabled, after destroy and after disable (completed or
    not), a call of the hook throws a TypeError and leaves the element as it
    was. *)
Theorem onAfterGetHeader_without_settings (w : World) (index : Z) (th : TH) :
  onAfterGetHeader new_plugin index th = (Throw TypeError, th) ∧
  onAfterGetHeader (self (destroy w).2) index th = (Throw TypeError, th) ∧
  onAfterGetHeader (self (disablePlugin w).2) index th = (Throw TypeError, th).
Proof.
  assert (Hnull : ∀ this, settings this = Prim PNull →
            onAfterGetHeader this index th = (Throw TypeError, th)).
  { intros this Hs. by rewrite onAfterGetHeader_unfold, Hs. }
  assert (Hdis : settings (self (disablePlugin w).2) = Prim PNull).
  { rewrite disablePlugin_run. by case_decide. }
  split; [by apply Hnull|]. split; apply Hnull; [by rewrite destroy_run | done].
Qed.

(** ** The cleanup traversal *)

Lemma hot_shape_update_cell f sf i j h :
  hot_shape (update_cell f sf i j h) = hot_shape h.
Proof.
  unfold update_cell, hot_shape.
  destruct sf; simpl; rewrite ?shape_alter; try done;
    try (intros row; apply length_alter).
  destruct (topLeftCornerOverlay h); simpl; [|done].
  rewrite shape_alter; [done|]. intros row. apply length_alter.
Qed.

Lemma cell_update_cell f sf i j h :
  cell sf (Z.of_nat i) (Z.of_nat j) (update_cell f sf (Z.of_nat i) (Z.of_nat j) h)
  = f <$> cell sf (Z.of_nat i) (Z.of_nat j) h.
Proof.
  rewrite !cell_of_nat. unfold update_cell. rewrite !Nat2Z.id.
  assert (Hl : ∀ thead : THEAD,
            alter (alter f j) i thead !! i ≫= (.!! j)
            = f <$> (thead !! i ≫= (.!! j))).
  { intros thead. rewrite list_lookup_alter_eq.
    destruct (thead !! i) as [row|]; simpl; [|done].
    by rewrite list_lookup_alter_eq. }
  destruct sf; simpl; try apply Hl.
  destruct (topLeftCornerOverlay h); simpl; [apply Hl | done].
Qed.

Lemma visited_shape h h' i j :
  columnHeaders_length h = columnHeaders_length h' →
  hot_shape h = hot_shape h' →
  visited h i j ↔ visited h' i j.
Proof.
  unfold visited, hot_shape. intros -> [= Hm _ _].
  by rewrite (row_length_shape _ _ i Hm).
Qed.

(** X12. How the traversal ends, and what it does to the titles.  It
    returns when the master THEAD has a row for every configured level and
    throws a TypeError otherwise.  In both cases the cell of any surface at
    a visited position has no [title] afterwards, and the [title] of every
    other cell is what it was: the levels before a missing master row are
    cleaned although the traversal fails. *)
Theorem clearTitleAttributes_outcome (w : World) (sf : surface) (i j : nat) :
  (clearTitleAttributes w).1
    = (if decide (master_rows_present (hot w)) then Return tt
       else Throw TypeError) ∧
  title_at sf (Z.of_nat i) (Z.of_nat j) (hot (clearTitleAttributes w).2)
    = (if decide (visited (hot w) i j) then None
       else title_at sf (Z.of_nat i) (Z.of_nat j) (hot w)).
Proof.
  rewrite clearTitleAttributes_run. simpl. split; [done|].
  unfold title_at. rewrite cell_cleared.
  destruct (cell sf (Z.of_nat i) (Z.of_nat j) (hot w)) as [th|]; simpl.
  - case_decide; [apply title_removed | done].
  - by case_decide.
Qed.

(** X13. What the traversal leaves alone: the plugin object, the host
    configuration, the number of rows and of cells of every surface, every
    attribute other than [title] and the inner label of every cell, and
    every cell at a position that is not visited. *)
Theorem clearTitleAttributes_frame
    (w : World) (sf : surface) (i j : nat) (name : string) :
  name ≠ "title" →
  self (clearTitleAttributes w).2 = self w ∧
  headerTooltips (hot (clearTitleAttributes w).2) = headerTooltips (hot w) ∧
  columnHeaders_length (hot (clearTitleAttributes w).2)
    = columnHeaders_length (hot w) ∧
  hot_shape (hot (clearTitleAttributes w).2) = hot_shape (hot w) ∧
  cell sf (Z.of_nat i) (Z.of_nat j) (hot (clearTitleAttributes w).2)
      ≫= getAttribute name
    = cell sf (Z.of_nat i) (Z.of_nat j) (hot w) ≫= getAttribute name ∧
  th_span <$> cell sf (Z.of_nat i) (Z.of_nat j) (hot (clearTitleAttributes w).2)
    = th_span <$> cell sf (Z.of_nat i) (Z.of_nat j) (hot w) ∧
  (¬ visited (hot w) i j →
   cell sf (Z.of_nat i) (Z.of_nat j) (hot (clearTitleAttributes w).2)
   = cell sf (Z.of_nat i) (Z.of_nat j) (hot w)).
Proof.
  intros Hne. rewrite clearTitleAttributes_run. simpl.
  split; [done|]. split; [done|]. split; [done|].
  split; [apply cleared_shape|].
  rewrite cell_cleared.
  destruct (cell sf (Z.of_nat i) (Z.of_nat j) (hot w)) as [th|]; simpl.
  - case_decide; simpl.
    + split; [by apply other_attributes_kept|]. by split.
    + by repeat split.
  - by repeat split.
Qed.

Lemma clearTitleAttributes_frame_witness :
  "class" ≠ "title" ∧
  self (clearTitleAttributes {| hot := foreign_host; self := new_plugin |}).2
    = self {| hot := foreign_host; self := new_plugin |} ∧
  headerTooltips
      (hot (clearTitleAttributes {| hot := foreign_host; self := new_plugin |}).2)
    = headerTooltips (hot {| hot := foreign_host; self := new_plugin |}) ∧
  columnHeaders_length
      (hot (clearTitleAttributes {| hot := foreign_host; self := new_plugin |}).2)
    = columnHeaders_length (hot {| hot := foreign_host; self := new_plugin |}) ∧
  hot_shape
      (hot (clearTitleAttributes {| hot := foreign_host; self := new_plugin |}).2)
    = hot_shape (hot {| hot := foreign_host; self := new_plugin |}) ∧
  cell Master (Z.of_nat 0) (Z.of_nat 0)
      (hot (clearTitleAttributes {| hot := foreign_host; self := new_plugin |}).2)
      ≫= getAttribute "class"
    = cell Master (Z.of_nat 0) (Z.of_nat 0)
        (hot {| hot := foreign_host; self := new_plugin |})
      ≫= getAttribute "class" ∧
  th_span <$> cell Master (Z.of_nat 0) (Z.of_nat 0)
      (hot (clearTitleAttributes {| hot := foreign_host; self := new_plugin |}).2)
    = th_span <$> cell Master (Z.of_nat 0) (Z.of_nat 0)
        (hot {| hot := foreign_host; self := new_plugin |}) ∧
  (¬ visited (hot {| hot := foreign_host; self := new_plugin |}) 0 0 →
   cell Master (Z.of_nat 0) (Z.of_nat 0)
     (hot (clearTitleAttributes {| hot := foreign_host; self := new_plugin |}).2)
   = cell Master (Z.of_nat 0) (Z.of_nat 0)
       (hot {| hot := foreign_host; self := new_plugin |})).
Proof.
  split; [discriminate|].
  apply (clearTitleAttributes_frame
           {| hot := foreign_host; self := new_plugin |} Master 0 0 "class").
  discriminate.
Defined.

(** X14. With no header level configured the traversal visits nothing: it
    returns with the world as it was, whatever titles the headers carry, and
    disable then only resets the plugin object. *)
Theorem clearTitleAttributes_no_levels (w : World) :
  columnHeaders_length (hot w) = 0%nat →
  clearTitleAttributes w = (Return tt, w) ∧
  disablePlugin w = (Return tt, {| hot := hot w; self := new_plugin |}).
Proof.
  intros H0.
  assert (Hc : cleared (hot w) = hot w).
  { unfold cleared. rewrite H0. apply map_surfaces_id, clear_levels_0. }
  assert (Hwf : master_rows_present (hot w)).
  { unfold master_rows_present. rewrite H0. lia. }
  rewrite clearTitleAttributes_run, disablePlugin_run, !decide_True by done.
  unfold with_hot. rewrite Hc. by destruct w.
Qed.

Lemma clearTitleAttributes_no_levels_witness :
  columnHeaders_length
    (hot {| hot := {| headerTooltips := Prim (PBool true);
                      columnHeaders_length := 0;
                      wtTable_THEAD := wtTable_THEAD drawn_host;
                      topOverlay_THEAD := [];
                      topLeftCornerOverlay := None |};
            self := new_plugin |}) = 0%nat ∧
  clearTitleAttributes
      {| hot := {| headerTooltips := Prim (PBool true);
                   columnHeaders_length := 0;
                   wtTable_THEAD := wtTable_THEAD drawn_host;
                   topOverlay_THEAD := [];
                   topLeftCornerOverlay := None |};
         self := new_plugin |}
    = (Return tt,
       {| hot := {| headerTooltips := Prim (PBool true);
                    columnHeaders_length := 0;
                    wtTable_THEAD := wtTable_THEAD drawn_host;
                    topOverlay_THEAD := [];
                    topLeftCornerOverlay := None |};
          self := new_plugin |}) ∧
  disablePlugin
      {| hot := {| headerTooltips := Prim (PBool true);
                   columnHeaders_length := 0;
                   wtTable_THEAD := wtTable_THEAD drawn_host;
                   topOverlay_THEAD := [];
                   topLeftCornerOverlay := None |};
         self := new_plugin |}
    = (Return tt,
       {| hot := hot {| hot := {| headerTooltips := Prim (PBool true);
                                  columnHeaders_length := 0;
                                  wtTable_THEAD := wtTable_THEAD drawn_host;
                                  topOverlay_THEAD := [];
                                  topLeftCornerOverlay := None |};
                        self := new_plugin |};
          self := new_plugin |}).
Proof.
  split; [reflexivity|].
  apply (clearTitleAttributes_no_levels
           {| hot := {| headerTooltips := Prim (PBool true);
                        columnHeaders_length := 0;
                        wtTable_THEAD := wtTable_THEAD drawn_host;
                        topOverlay_THEAD := [];
                        topLeftCornerOverlay := None |};
              self := new_plugin |}).
  reflexivity.
Defined.

(** X15. Running the traversal again right after it has run changes nothing:
    two traversals end as one does, in the world they leave and in the way
    they end. *)
Theorem clearTitleAttributes_twice (w : World) :
  (clearTitleAttributes ;; clearTitleAttributes) w = clearTitleAttributes w.
Proof.
  unfold mbind, M_bind. rewrite (clearTitleAttributes_run w).
  case_decide as Hwf; [|done].
  rewrite clearTitleAttributes_run. simpl.
  rewrite decide_True by by apply master_rows_present_cleared.
  unfold with_hot. simpl. by rewrite cleared_idemp.
Qed.

(** X16. The traversal undoes the hook.  Let the hook run, under any plugin
    state, on the cell of any surface at a visited position, and then let
    the traversal run: the cell is what the traversal alone would have left,
    without [title] and otherwise as before the hook. *)
Theorem cleanup_undoes_hook
    (h : Hot) (this : HeaderTooltips) (index : Z) (sf : surface) (i j : nat)
    (th : TH) :
  visited h i j →
  cell sf (Z.of_nat i) (Z.of_nat j) h = Some th →
  cell sf (Z.of_nat i) (Z.of_nat j)
    (hot (clearTitleAttributes
            {| hot := update_cell (after_hook this index) sf
                        (Z.of_nat i) (Z.of_nat j) h;
               self := this |}).2)
  = Some (removeAttribute "title" th) ∧
  cell sf (Z.of_nat i) (Z.of_nat j)
    (hot (clearTitleAttributes {| hot := h; self := this |}).2)
  = Some (removeAttribute "title" th).
Proof.
  intros Hv Hcell. rewrite !clearTitleAttributes_run. simpl. split.
  - rewrite cell_cleared, cell_update_cell, Hcell. simpl.
    rewrite decide_True.
    + f_equal. unfold after_hook.
      destruct (onAfterGetHeader_effect this index th) as [-> | (span & _ & ->)];
        [done | apply removeAttribute_setAttribute].
    + apply (visited_shape _ h); [|apply hot_shape_update_cell|done].
      by destruct sf.
  - by rewrite cell_cleared, Hcell, decide_True.
Qed.

(** ** The lifecycle *)

Lemma disablePlugin_idempotent_witness :
  master_rows_present (hot {| hot := drawn_host; self := plugin_with default_settings |}) ∧
  disablePlugin {| hot := drawn_host; self := plugin_with default_settings |}
    = (Return tt,
       {| hot := cleared (hot {| hot := drawn_host;
                                 self := plugin_with default_settings |});
          self := new_plugin |}) ∧
  disablePlugin
      {| hot := cleared (hot {| hot := drawn_host;
                                self := plugin_with default_settings |});
         self := new_plugin |}
    = (Return tt,
       {| hot := cleared (hot {| hot := drawn_host;
                                 self := plugin_with default_settings |});
          self := new_plugin |}) ∧
  disablePlugin
      {| hot := hot {| hot := drawn_host; self := plugin_with default_settings |};
         self := new_plugin |}
    = disablePlugin {| hot := drawn_host; self := plugin_with default_settings |}.
Proof.
  split; [unfold master_rows_present; simpl; lia|].
  apply (disablePlugin_idempotent
           {| hot := drawn_host; self := plugin_with default_settings |}).
  unfold master_rows_present; simpl; lia.
Defined.

(** X19. A disable that fails is left half done.  Where the master THEAD
    lacks the row of a configured level, disable throws after it has dropped
    the settings and before it reaches the base class: the plugin keeps its
    enabled flag and its hook subscriptions while its settings are null. *)
Theorem disablePlugin_failed (w : World) :
  ¬ master_rows_present (hot w) →
  (disablePlugin w).1 = Throw TypeError ∧
  settings (self (disablePlugin w).2) = Prim PNull ∧
  enabled (self (disablePlugin w).2) = enabled (self w) ∧
  hooks (self (disablePlugin w).2) = hooks (self w).
Proof. intros Hwf. by rewrite disablePlugin_run, decide_False. Qed.

Lemma disablePlugin_failed_witness :
  ¬ master_rows_present
      (hot {| hot := undrawn_host; self := plugin_with default_settings |}) ∧
  (disablePlugin {| hot := undrawn_host; self := plugin_with default_settings |}).1
    = Throw TypeError ∧
  settings (self (disablePlugin
                    {| hot := undrawn_host;
                       self := plugin_with default_settings |}).2) = Prim PNull ∧
  enabled (self (disablePlugin
                   {| hot := undrawn_host;
                      self := plugin_with default_settings |}).2)
    = enabled (self {| hot := undrawn_host; self := plugin_with default_settings |}) ∧
  hooks (self (disablePlugin
                 {| hot := undrawn_host;
                    self := plugin_with default_settings |}).2)
    = hooks (self {| hot := undrawn_host; self := plugin_with default_settings |}).
Proof.
  split; [unfold master_rows_present; simpl; lia|].
  apply (disablePlugin_failed
           {| hot := undrawn_host; self := plugin_with default_settings |}).
  unfold master_rows_present; simpl; lia.
Defined.

(** X20. Disable followed by enable, the way settings are refreshed: where
    disable returns, the plugin ends enabled with the configuration read and
    normalised anew and with exactly the two hook subscriptions, however
    many it held before, over the cleaned host. *)
Theorem disablePlugin_then_enablePlugin (w : World) :
  master_rows_present (hot w) →
  (disablePlugin ;; enablePlugin) w
  = (Return tt,
     {| hot := hot (disablePlugin w).2;
        self := {| settings := parseSettings_value (headerTooltips (hot w));
                   enabled := true;
                   hooks := ["afterGetColHeader"; "afterGetRowHeader"] |} |}).
Proof.
  intros Hwf. unfold mbind, M_bind.
  rewrite disablePlugin_run, decide_True by done.
  by rewrite enablePlugin_run.
Qed.

Lemma disablePlugin_then_enablePlugin_witness :
  master_rows_present
    (hot {| hot := foreign_host; self := plugin_with default_settings |}) ∧
  (disablePlugin ;; enablePlugin)
      {| hot := foreign_host; self := plugin_with default_settings |}
  = (Return tt,
     {| hot := hot (disablePlugin {| hot := foreign_host;
                                     self := plugin_with default_settings |}).2;
        self := {| settings :=
                     parseSettings_value
                       (headerTooltips
                          (hot {| hot := foreign_host;
                                  self := plugin_with default_settings |}));
                   enabled := true;
                   hooks := ["afterGetColHeader"; "afterGetRowHeader"] |} |}).
Proof.
  split; [unfold master_rows_present; simpl; lia|].
  apply (disablePlugin_then_enablePlugin
           {| hot := foreign_host; self := plugin_with default_settings |}).
  unfold master_rows_present; simpl; lia.
Defined.

End measurement.

(** * Concrete runs

    Runs of the hook on sample headers.  They do not depend on what the
    measurement helper does without an element; it is taken to throw. *)

Lemma onlyTrimmed_title_iff_label_width_witness :
  truthy_setting (plugin_with (settings_of true true true))
    (dimension (header "THEAD" ∅ "Revenue" 120)) = true ∧
  truthy_setting (plugin_with (settings_of true true true)) "onlyTrimmed" = true ∧
  th_span (header "THEAD" ∅ "Revenue" 120)
    = Some {| textContent := "Revenue"; span_offsetWidth := 120 |} ∧
  ∃ th',
    onAfterGetHeader (Throw TypeError) (plugin_with (settings_of true true true)) 0
      (header "THEAD" ∅ "Revenue" 120) = (Return tt, th') ∧
    th' = (if decide ((50 ≤ 120)%Z ∧ 120%Z ≠ 0%Z)
           then setAttribute "title" "Revenue" (header "THEAD" ∅ "Revenue" 120)
           else header "THEAD" ∅ "Revenue" 120) ∧
    (title (header "THEAD" ∅ "Revenue" 120) = None →
       (is_Some (title th') ↔ (50 ≤ 120)%Z ∧ 120%Z ≠ 0%Z)) ∧
    (∀ cellWidth,
       onAfterGetHeader (Throw TypeError) (plugin_with (settings_of true true true)) 0
         (set_th_offsetWidth cellWidth (header "THEAD" ∅ "Revenue" 120))
       = (Return tt, set_th_offsetWidth cellWidth th')).
Proof.
  split; [reflexivity|]. split; [reflexivity|]. split; [reflexivity|].
  apply (onlyTrimmed_title_iff_label_width (Throw TypeError)
           (plugin_with (settings_of true true true)) 0
           (header "THEAD" ∅ "Revenue" 120)
           {| textContent := "Revenue"; span_offsetWidth := 120 |});
    reflexivity.
Defined.

(** The four widths named by the specification, on a column header and on a
    row header. *)
Example onlyTrimmed_widths :
  map (λ w, title (onAfterGetHeader (Throw TypeError) (plugin_with (settings_of true true true)) 0
                     (header "THEAD" ∅ "Revenue" w)).2)
      [0; 49; 50; 120]%Z
  = [None; None; Some "Revenue"; Some "Revenue"] ∧
  map (λ w, title (onAfterGetHeader (Throw TypeError) (plugin_with (settings_of true true true)) 0
                     (header "TBODY" ∅ "Qty" w)).2)
      [0; 49; 50; 120]%Z
  = [None; None; Some "Qty"; Some "Qty"].
Proof. split; vm_compute; reflexivity. Qed.

Lemma title_is_label_text_witness :
  truthy_setting (plugin_with (settings_of true true false))
    (dimension (header "THEAD" ∅ "Revenue" 10)) = true ∧
  falsy_setting (plugin_with (settings_of true true false)) "onlyTrimmed" = true ∧
  th_span (header "THEAD" ∅ "Revenue" 10)
    = Some {| textContent := "Revenue"; span_offsetWidth := 10 |} ∧
  onAfterGetHeader (Throw TypeError) (plugin_with (settings_of true true false)) 3
      (header "THEAD" ∅ "Revenue" 10)
    = (Return tt, setAttribute "title" "Revenue" (header "THEAD" ∅ "Revenue" 10)) ∧
  title (onAfterGetHeader (Throw TypeError) (plugin_with (settings_of true true false)) 3
           (header "THEAD" ∅ "Revenue" 10)).2 = Some "Revenue".
Proof.
  split; [reflexivity|]. split; [reflexivity|]. split; [reflexivity|].
  apply (title_is_label_text (Throw TypeError) (plugin_with (settings_of true true false)) 3
           (header "THEAD" ∅ "Revenue" 10)
           {| textContent := "Revenue"; span_offsetWidth := 10 |});
    reflexivity.
Defined.

Lemma disabled_dimension_untouched_witness :
  falsy_setting (plugin_with (settings_of true false false))
    (dimension (header "THEAD" {["title" := "kept"]} "2024" 80)) = true ∧
  onAfterGetHeader (Throw TypeError) (plugin_with (settings_of true false false)) 0
      (header "THEAD" {["title" := "kept"]} "2024" 80)
    = (Return tt, header "THEAD" {["title" := "kept"]} "2024" 80).
Proof.
  split; [reflexivity|].
  apply (disabled_dimension_untouched (Throw TypeError)
           (plugin_with (settings_of true false false)) 0
           (header "THEAD" {["title" := "kept"]} "2024" 80)).
  reflexivity.
Defined.

(** A settings object that lacks the key counts as switched off too. *)
Example absent_key_is_falsy :
  onAfterGetHeader (Throw TypeError) (plugin_with (Object {["rows" := PBool true]})) 0
      (header "THEAD" ∅ "2024" 80)
    = (Return tt, header "THEAD" ∅ "2024" 80).
Proof. vm_compute. reflexivity. Qed.

(** The scenario of the specification: rows on, columns off. *)
Example rows_only_scenario :
  title (onAfterGetHeader (Throw TypeError) (plugin_with (settings_of true false false)) 0
           (header "TBODY" ∅ "Qty" 10)).2 = Some "Qty" ∧
  title (onAfterGetHeader (Throw TypeError) (plugin_with (settings_of true false false)) 0
           (header "THEAD" ∅ "2024" 10)).2 = None.
Proof. split; vm_compute; reflexivity. Qed.

(** A title set while the plugin showed every header survives later passes
    under settings that no longer apply to the cell, and under no settings
    at all. *)
Example title_persists :
  title (renders (Throw TypeError) [(plugin_with (settings_of true true false), 0%Z);
                  (plugin_with (settings_of false false false), 0%Z);
                  (plugin_with (settings_of true true true), 0%Z);
                  (plugin_with (Prim PNull), 0%Z)]
           (header "THEAD" ∅ "Id" 10)) = Some "Id".
Proof. vm_compute. reflexivity. Qed.

Lemma onAfterGetHeader_reads_two_keys_witness :
  lookupProp (settings (plugin_with (settings_of true true false)))
      (dimension (header "THEAD" ∅ "Id" 10))
    = lookupProp (settings (plugin_with (settings_of false true false)))
        (dimension (header "THEAD" ∅ "Id" 10)) ∧
  lookupProp (settings (plugin_with (settings_of true true false))) "onlyTrimmed"
    = lookupProp (settings (plugin_with (settings_of false true false))) "onlyTrimmed" ∧
  onAfterGetHeader (Throw TypeError) (plugin_with (settings_of true true false)) 0
      (header "THEAD" ∅ "Id" 10)
    = onAfterGetHeader (Throw TypeError) (plugin_with (settings_of false true false)) 7
        (header "THEAD" ∅ "Id" 10).
Proof.
  split; [reflexivity|]. split; [reflexivity|].
  apply (onAfterGetHeader_reads_two_keys (Throw TypeError)
           (plugin_with (settings_of true true false))
           (plugin_with (settings_of false true false)) 0 7
           (header "THEAD" ∅ "Id" 10)); reflexivity.
Defined.

Lemma onAfterGetHeader_frame_witness :
  "class" ≠ "title" ∧
  getAttribute "class"
      (after_hook (Throw TypeError) (plugin_with default_settings) 0
         (header "THEAD" {["class" := "htLeft"]} "Id" 10))
    = getAttribute "class" (header "THEAD" {["class" := "htLeft"]} "Id" 10) ∧
  th_span (after_hook (Throw TypeError) (plugin_with default_settings) 0
             (header "THEAD" {["class" := "htLeft"]} "Id" 10))
    = th_span (header "THEAD" {["class" := "htLeft"]} "Id" 10) ∧
  th_offsetWidth (after_hook (Throw TypeError) (plugin_with default_settings) 0
                    (header "THEAD" {["class" := "htLeft"]} "Id" 10))
    = th_offsetWidth (header "THEAD" {["class" := "htLeft"]} "Id" 10) ∧
  th_section (after_hook (Throw TypeError) (plugin_with default_settings) 0
                (header "THEAD" {["class" := "htLeft"]} "Id" 10))
    = th_section (header "THEAD" {["class" := "htLeft"]} "Id" 10).
Proof.
  split; [discriminate|].
  apply (onAfterGetHeader_frame (Throw TypeError) (plugin_with default_settings) 0
           (header "THEAD" {["class" := "htLeft"]} "Id" 10) "class").
  discriminate.
Defined.

Lemma onAfterGetHeader_missing_span_witness :
  truthy_setting (plugin_with default_settings)
    (dimension {| attributes := ∅; th_span := None; th_offsetWidth := 50;
                  th_section := "THEAD" |}) = true ∧
  falsy_setting (plugin_with default_settings) "onlyTrimmed" = true ∧
  th_span {| attributes := ∅; th_span := None; th_offsetWidth := 50;
             th_section := "THEAD" |} = None ∧
  onAfterGetHeader (Throw TypeError) (plugin_with default_settings) 0
      {| attributes := ∅; th_span := None; th_offsetWidth := 50;
         th_section := "THEAD" |}
    = (Throw TypeError,
       {| attributes := ∅; th_span := None; th_offsetWidth := 50;
          th_section := "THEAD" |}).
Proof.
  split; [reflexivity|]. split; [reflexivity|]. split; [reflexivity|].
  apply (onAfterGetHeader_missing_span (Throw TypeError) (plugin_with default_settings) 0
           {| attributes := ∅; th_span := None; th_offsetWidth := 50;
              th_section := "THEAD" |}); reflexivity.
Defined.

Lemma onAfterGetHeader_primitive_settings_witness :
  settings (plugin_with (Prim (PNumber 1))) = Prim (PNumber 1) ∧
  PNumber 1 ≠ PUndefined ∧
  PNumber 1 ≠ PNull ∧
  onAfterGetHeader (Throw TypeError) (plugin_with (Prim (PNumber 1))) 0 (header "THEAD" ∅ "Id" 80)
    = (Return tt, header "THEAD" ∅ "Id" 80).
Proof.
  split; [reflexivity|]. split; [discriminate|]. split; [discriminate|].
  apply (onAfterGetHeader_primitive_settings (Throw TypeError) (plugin_with (Prim (PNumber 1))) 0
           (header "THEAD" ∅ "Id" 80) (PNumber 1));
    [reflexivity | discriminate | discriminate].
Defined.

Lemma enablePlugin_boolean_shows_all_witness :
  enabled (self {| hot := set_headerTooltips (Prim (PBool false)) drawn_host;
                   self := new_plugin |}) = false ∧
  headerTooltips (hot {| hot := set_headerTooltips (Prim (PBool false)) drawn_host;
                         self := new_plugin |}) = Prim (PBool false) ∧
  th_span (header "TBODY" ∅ "Qty" 10)
    = Some {| textContent := "Qty"; span_offsetWidth := 10 |} ∧
  onAfterGetHeader (Throw TypeError)
      (self (enablePlugin
               {| hot := set_headerTooltips (Prim (PBool false)) drawn_host;
                  self := new_plugin |}).2) 2 (header "TBODY" ∅ "Qty" 10)
    = (Return tt, setAttribute "title" "Qty" (header "TBODY" ∅ "Qty" 10)).
Proof.
  split; [reflexivity|]. split; [reflexivity|]. split; [reflexivity|].
  apply (enablePlugin_boolean_shows_all (Throw TypeError)
           {| hot := set_headerTooltips (Prim (PBool false)) drawn_host;
              self := new_plugin |} false 2 (header "TBODY" ∅ "Qty" 10)
           {| textContent := "Qty"; span_offsetWidth := 10 |}); reflexivity.
Defined.

Lemma isEnabled_then_hook_returns_witness :
  (isEnabled {| hot := foreign_host; self := new_plugin |}).1 = Return true ∧
  enabled (self {| hot := foreign_host; self := new_plugin |}) = false ∧
  th_span (header "THEAD" ∅ "Id" 80)
    = Some {| textContent := "Id"; span_offsetWidth := 80 |} ∧
  (isEnabled {| hot := foreign_host; self := new_plugin |}).2
    = {| hot := foreign_host; self := new_plugin |} ∧
  (onAfterGetHeader (Throw TypeError)
     (self (enablePlugin {| hot := foreign_host; self := new_plugin |}).2) 0
     (header "THEAD" ∅ "Id" 80)).1 = Return tt.
Proof.
  split; [reflexivity|]. split; [reflexivity|]. split; [reflexivity|].
  apply (isEnabled_then_hook_returns (Throw TypeError)
           {| hot := foreign_host; self := new_plugin |} 0
           (header "THEAD" ∅ "Id" 80)
           {| textContent := "Id"; span_offsetWidth := 80 |}); reflexivity.
Defined.

Lemma enablePlugin_all_off_witness :
  enabled (self {| hot := set_headerTooltips (Object ∅) drawn_host;
                   self := new_plugin |}) = false ∧
  headerTooltips (hot {| hot := set_headerTooltips (Object ∅) drawn_host;
                         self := new_plugin |}) = Object ∅ ∧
  toBoolean_prim (default PUndefined ((∅ : gmap string prim) !! "rows")) = false ∧
  toBoolean_prim (default PUndefined ((∅ : gmap string prim) !! "columns")) = false ∧
  (isEnabled {| hot := set_headerTooltips (Object ∅) drawn_host;
                self := new_plugin |}).1 = Return true ∧
  hooks (self (enablePlugin {| hot := set_headerTooltips (Object ∅) drawn_host;
                               self := new_plugin |}).2)
    = (hooks (self {| hot := set_headerTooltips (Object ∅) drawn_host;
                      self := new_plugin |})
       ++ ["afterGetColHeader"; "afterGetRowHeader"])%list ∧
  onAfterGetHeader (Throw TypeError)
      (self (enablePlugin {| hot := set_headerTooltips (Object ∅) drawn_host;
                             self := new_plugin |}).2) 0
      (header "THEAD" ∅ "Id" 80)
    = (Return tt, header "THEAD" ∅ "Id" 80).
Proof.
  split; [reflexivity|]. split; [reflexivity|]. split; [reflexivity|].
  split; [reflexivity|].
  apply (enablePlugin_all_off (Throw TypeError)
           {| hot := set_headerTooltips (Object ∅) drawn_host; self := new_plugin |}
           ∅ 0 (header "THEAD" ∅ "Id" 80)); reflexivity.
Defined.

Lemma cleanup_undoes_hook_witness :
  visited drawn_host 0 1 ∧
  cell Top (Z.of_nat 0) (Z.of_nat 1) drawn_host
    = Some (header "THEAD" {["title" := "Qty"]} "Qty" 30) ∧
  cell Top (Z.of_nat 0) (Z.of_nat 1)
    (hot (clearTitleAttributes
            {| hot := update_cell (after_hook (Throw TypeError) (plugin_with default_settings) 1) Top
                        (Z.of_nat 0) (Z.of_nat 1) drawn_host;
               self := plugin_with default_settings |}).2)
  = Some (removeAttribute "title" (header "THEAD" {["title" := "Qty"]} "Qty" 30)) ∧
  cell Top (Z.of_nat 0) (Z.of_nat 1)
    (hot (clearTitleAttributes
            {| hot := drawn_host; self := plugin_with default_settings |}).2)
  = Some (removeAttribute "title" (header "THEAD" {["title" := "Qty"]} "Qty" 30)).
Proof.
  split; [unfold visited, row_length; cbn; lia|]. split; [reflexivity|].
  apply (cleanup_undoes_hook (Throw TypeError) drawn_host (plugin_with default_settings) 1 Top 0 1).
  - unfold visited, row_length; cbn; lia.
  - reflexivity.
Defined.
